(** * Reading Archive server ([server.py]): a shallow embedding

    The development follows the layers the Python program stands on:

    - [Utf8]: the codec behind [bytes.decode('utf-8')] and the encoder of a
      text file opened with [encoding='utf-8'];
    - [Py]: the builtins the handler calls ([int], [repr], [str.lower],
      [json.dumps]) and the exceptions they raise;
    - [Http]: the part of [http.server.BaseHTTPRequestHandler] the handler
      inherits ([send_response], [send_header], [end_headers], [send_error]),
      over an explicit state with exceptions;
    - [ReadingArchiveHandler]: the class of [server.py], method by method.

    Scope of the model: requests that carry an HTTP version (HTTP/1.0 or
    later, the versions for which the base class emits a header block), a
    POSIX host ([os.linesep] is a line feed), and a file system and a socket
    that do not fail. *)

From Stdlib Require Import NArith ZArith List String Ascii Bool Lia.
From Stdlib.Strings Require Import Byte.
From Stdlib Require Import DecimalString DecimalPos DecimalN.
From stdpp Require Import gmap strings.
Import ListNotations.

Local Open Scope N_scope.

(* ===================================================================== *)
(** ** Bytes *)
(* ===================================================================== *)

(** The value of a byte read from a stream, and the byte of a value the
    encoder computed (values above 255 do not occur; they are sent to 0). *)
Definition byte_of_N (n : N) : byte :=
  match Byte.of_N n with
  | Some b => b
  | None => x00
  end.

(** Bounded universal statements over [N] are settled by running the test
    on every value below the bound. *)
Fixpoint all_below (n : nat) (P : N -> bool) : bool :=
  match n with
  | O => true
  | S k => P (N.of_nat k) && all_below k P
  end.

(* ===================================================================== *)
(** ** The UTF-8 codec *)
(* ===================================================================== *)

Module Utf8.

(** A Python [str] is a sequence of code points. *)
Definition str := list N.

(** What a failed decode reports: the offending byte, the range
    [start, stop) of the input it blames and the reason. *)
Inductive reason := UnexpectedEnd | InvalidStart | InvalidContinuation.

Record decode_error := DecodeError {
  err_byte : byte;
  err_start : N;
  err_stop : N;
  err_reason : reason
}.

(** [IS_CONTINUATION_BYTE]: [ch >= 0x80 && ch < 0xC0]. *)
Definition is_continuation (ch : N) : bool := (0x80 <=? ch) && (ch <? 0xC0).

Definition join2 (ch ch2 : N) : N :=
  N.shiftl ch 6 + ch2 - (N.shiftl 0xC0 6 + 0x80).

Definition join3 (ch ch2 ch3 : N) : N :=
  N.shiftl ch 12 + N.shiftl ch2 6 + ch3
  - (N.shiftl 0xE0 12 + N.shiftl 0x80 6 + 0x80).

Definition join4 (ch ch2 ch3 ch4 : N) : N :=
  N.shiftl ch 18 + N.shiftl ch2 12 + N.shiftl ch3 6 + ch4
  - (N.shiftl 0xF0 18 + N.shiftl 0x80 12 + N.shiftl 0x80 6 + 0x80).

Definition more (c : N) (r : decode_error + str) : decode_error + str :=
  match r with
  | inl e => inl e
  | inr s => inr (c :: s)
  end.

(** The strict decoder, one character per round, [pos] counting the bytes
    already consumed.  The checks come in the order of CPython's
    [utf8_decode]: lead byte, then each continuation byte in turn, the
    second one also against the over-long, surrogate and out-of-range
    forms; input that stops inside a character is an unexpected end. *)
Fixpoint decode_from (pos : N) (s : list byte) {struct s}
  : decode_error + str :=
  match s with
  | [] => inr []
  | b :: s1 =>
    let ch := Byte.to_N b in
    let fail stop why := inl (DecodeError b pos stop why) in
    if ch <? 0x80 then more ch (decode_from (pos + 1) s1)
    else if ch <? 0xE0 then
      if ch <? 0xC2 then fail (pos + 1) InvalidStart
      else
        match s1 with
        | [] => fail (pos + 1) UnexpectedEnd
        | b2 :: s2 =>
          let ch2 := Byte.to_N b2 in
          if negb (is_continuation ch2)
          then fail (pos + 1) InvalidContinuation
          else more (join2 ch ch2) (decode_from (pos + 2) s2)
        end
    else if ch <? 0xF0 then
      match s1 with
      | [] => fail (pos + 1) UnexpectedEnd
      | b2 :: s2 =>
        let ch2 := Byte.to_N b2 in
        if negb (is_continuation ch2)
           || (if ch2 <? 0xA0 then ch =? 0xE0 else ch =? 0xED)
        then fail (pos + 1) InvalidContinuation
        else
          match s2 with
          | [] => fail (pos + 2) UnexpectedEnd
          | b3 :: s3 =>
            let ch3 := Byte.to_N b3 in
            if negb (is_continuation ch3)
            then fail (pos + 2) InvalidContinuation
            else more (join3 ch ch2 ch3) (decode_from (pos + 3) s3)
          end
      end
    else if ch <? 0xF5 then
      match s1 with
      | [] => fail (pos + 1) UnexpectedEnd
      | b2 :: s2 =>
        let ch2 := Byte.to_N b2 in
        if negb (is_continuation ch2)
           || (if ch2 <? 0x90 then ch =? 0xF0 else ch =? 0xF4)
        then fail (pos + 1) InvalidContinuation
        else
          match s2 with
          | [] => fail (pos + 2) UnexpectedEnd
          | b3 :: s3 =>
            let ch3 := Byte.to_N b3 in
            if negb (is_continuation ch3)
            then fail (pos + 2) InvalidContinuation
            else
              match s3 with
              | [] => fail (pos + 3) UnexpectedEnd
              | b4 :: s4 =>
                let ch4 := Byte.to_N b4 in
                if negb (is_continuation ch4)
                then fail (pos + 3) InvalidContinuation
                else more (join4 ch ch2 ch3 ch4) (decode_from (pos + 4) s4)
              end
          end
      end
    else fail (pos + 1) InvalidStart
  end.

(** [bytes.decode('utf-8')]. *)
Definition decode (s : list byte) : decode_error + str := decode_from 0 s.

(** The bytes of one code point, [None] for what the strict encoder
    refuses: a surrogate (and a number that is no code point at all). *)
Definition encode_char (ch : N) : option (list N) :=
  if ch <? 0x80 then Some [ch]
  else if ch <? 0x0800 then
    Some [N.lor 0xC0 (N.shiftr ch 6); N.lor 0x80 (N.land ch 0x3F)]
  else if ch <? 0x10000 then
    if (0xD800 <=? ch) && (ch <=? 0xDFFF) then None
    else Some [N.lor 0xE0 (N.shiftr ch 12);
               N.lor 0x80 (N.land (N.shiftr ch 6) 0x3F);
               N.lor 0x80 (N.land ch 0x3F)]
  else if ch <? 0x110000 then
    Some [N.lor 0xF0 (N.shiftr ch 18);
          N.lor 0x80 (N.land (N.shiftr ch 12) 0x3F);
          N.lor 0x80 (N.land (N.shiftr ch 6) 0x3F);
          N.lor 0x80 (N.land ch 0x3F)]
  else None.

(** [str.encode('utf-8')]: [inl i] is the index of the first character
    that cannot be encoded. *)
Fixpoint encode_from (i : N) (s : str) : N + list byte :=
  match s with
  | [] => inr []
  | ch :: s' =>
    match encode_char ch with
    | None => inl i
    | Some bs =>
      match encode_from (i + 1) s' with
      | inl j => inl j
      | inr rest => inr (map byte_of_N bs ++ rest)
      end
    end
  end.

Definition encode (s : str) : N + list byte := encode_from 0 s.

End Utf8.

(* ===================================================================== *)
(** ** Python builtins *)
(* ===================================================================== *)

Module Py.

(** Header names, header values and paths are Latin-1 text (the request is
    decoded as iso-8859-1), one character per [ascii]. *)
Definition code (a : ascii) : N := N_of_ascii a.

Fixpoint codes (s : string) : list N :=
  match s with
  | EmptyString => []
  | String a s' => code a :: codes s'
  end.

Definition dquote : string := String "034" EmptyString.

(** *** Printing numbers *)

(** [str(n)] for a non-negative [int]. *)
Definition str_N (n : N) : string :=
  DecimalString.NilEmpty.string_of_uint (N.to_uint n).

Definition hex_digit (d : N) : ascii :=
  ascii_of_N (if d <? 10 then 48 + d else 87 + d).

(** ["%0<width>x" % n]. *)
Fixpoint hex_fixed (width : nat) (n : N) : string :=
  match width with
  | O => EmptyString
  | S w => hex_fixed w (n / 16) +:+ String (hex_digit (n mod 16)) EmptyString
  end.

(** *** [repr] of a Latin-1 [str] *)

Definition has_char (c : N) (s : string) : bool :=
  existsb (N.eqb c) (codes s).

(** The quote [repr] wraps the text in: a double quote when the text has
    single quotes and no double quote, a single quote otherwise. *)
Definition repr_quote (s : string) : ascii :=
  if has_char 39 s && negb (has_char 34 s) then "034"%char else "'"%char.

(** [Py_UNICODE_ISPRINTABLE] on Latin-1: the controls, DEL, U+0080 to
    U+00A0 and the soft hyphen are not printable. *)
Definition is_printable (c : N) : bool :=
  ((32 <=? c) && (c <? 127)) || ((0xA1 <=? c) && negb (c =? 0xAD)).

Definition repr_char (quote : ascii) (a : ascii) : string :=
  let c := code a in
  if (c =? code quote) || (c =? 92) then String "092" (String a EmptyString)
  else if c =? 9 then "\t"
  else if c =? 10 then "\n"
  else if c =? 13 then "\r"
  else if is_printable c then String a EmptyString
  else "\x" +:+ hex_fixed 2 c.

Fixpoint repr_body (quote : ascii) (s : string) : string :=
  match s with
  | EmptyString => EmptyString
  | String a s' => repr_char quote a +:+ repr_body quote s'
  end.

Definition repr (s : string) : string :=
  let q := repr_quote s in
  String q (repr_body q s) +:+ String q EmptyString.

(** *** Exceptions *)

Inductive exn :=
| ValueError (message : string)
| UnicodeDecodeError (e : Utf8.decode_error)
| UnicodeEncodeError (ch : N) (position : N).

Definition reason_text (r : Utf8.reason) : string :=
  match r with
  | Utf8.UnexpectedEnd => "unexpected end of data"
  | Utf8.InvalidStart => "invalid start byte"
  | Utf8.InvalidContinuation => "invalid continuation byte"
  end.

(** [str(e)], the text an f-string puts in place of [{e}]. *)
Definition str (e : exn) : string :=
  match e with
  | ValueError message => message
  | UnicodeDecodeError (Utf8.DecodeError b start stop why) =>
    if stop =? start + 1
    then "'utf-8' codec can't decode byte 0x" +:+ hex_fixed 2 (Byte.to_N b)
         +:+ " in position " +:+ str_N start +:+ ": " +:+ reason_text why
    else "'utf-8' codec can't decode bytes in position " +:+ str_N start
         +:+ "-" +:+ str_N (stop - 1) +:+ ": " +:+ reason_text why
  | UnicodeEncodeError ch position =>
    "'utf-8' codec can't encode character '"
    +:+ (if ch <=? 0xFF then "\x" +:+ hex_fixed 2 ch
         else if ch <=? 0xFFFF then "\u" +:+ hex_fixed 4 ch
         else "\U" +:+ hex_fixed 8 ch)
    +:+ "' in position " +:+ str_N position +:+ ": surrogates not allowed"
  end.

(** [bytes.decode('utf-8')] and [str.encode('utf-8')], raising. *)
Definition decode (s : list byte) : exn + Utf8.str :=
  match Utf8.decode s with
  | inl e => inl (UnicodeDecodeError e)
  | inr t => inr t
  end.

Fixpoint first_unencodable (t : Utf8.str) : N :=
  match t with
  | [] => 0
  | ch :: t' =>
    match Utf8.encode_char ch with
    | None => ch
    | Some _ => first_unencodable t'
    end
  end.

Definition encode (t : Utf8.str) : exn + list byte :=
  match Utf8.encode t with
  | inl i => inl (UnicodeEncodeError (first_unencodable t) i)
  | inr s => inr s
  end.

(** *** [int] *)

(** The arguments [int] is applied to in this program: a header value or
    the default [0]. *)
Inductive object :=
| Str (s : string)
| Int (z : Z).

(** White space as [int] sees it in Latin-1 text: TAB to CR, the space,
    NEL and the no-break space. *)
Definition is_space (c : N) : bool :=
  ((9 <=? c) && (c <=? 13)) || (c =? 32) || (c =? 0x85) || (c =? 0xA0).

Definition is_digit (c : N) : bool := (48 <=? c) && (c <=? 57).

Fixpoint skip_spaces (l : list N) : list N :=
  match l with
  | c :: l' => if is_space c then skip_spaces l' else l
  | [] => []
  end.

(** The run of digits and underscores at the head of [l]: its value, the
    number of digits, whether it ended on an underscore, and what follows.
    [None] when two underscores meet. *)
Fixpoint scan_digits (value : Z) (digits : N) (prev_underscore : bool)
    (l : list N) : option (Z * N * bool * list N) :=
  match l with
  | c :: l' =>
    if c =? 95 then
      if prev_underscore then None
      else scan_digits value digits true l'
    else if is_digit c then
      scan_digits (10 * value + Z.of_N (c - 48)) (digits + 1) false l'
    else Some (value, digits, prev_underscore, l)
  | [] => Some (value, digits, prev_underscore, l)
  end.

(** [sys.get_int_max_str_digits()], at its default. *)
Definition int_max_str_digits : N := 4300.

Definition invalid_literal (s : string) : exn :=
  ValueError ("invalid literal for int() with base 10: " +:+ repr s).

Definition exceeds_limit (digits : N) : exn :=
  ValueError ("Exceeds the limit (" +:+ str_N int_max_str_digits
              +:+ " digits) for integer string conversion: value has "
              +:+ str_N digits
              +:+ " digits; use sys.set_int_max_str_digits() to increase the limit").

Definition int_of_str (s : string) : exn + Z :=
  let l := skip_spaces (codes s) in
  let '(negative, l) :=
    match l with
    | 43 :: l' => (false, l')
    | 45 :: l' => (true, l')
    | _ => (false, l)
    end in
  match l with
  | 95 :: _ => inl (invalid_literal s)
  | _ =>
    match scan_digits 0 0 false l with
    | None => inl (invalid_literal s)
    | Some (value, digits, trailing_underscore, rest) =>
      if trailing_underscore then inl (invalid_literal s)
      else if int_max_str_digits <? digits then inl (exceeds_limit digits)
      else if digits =? 0 then inl (invalid_literal s)
      else
        match skip_spaces rest with
        | [] => inr (if negative then (- value)%Z else value)
        | _ :: _ => inl (invalid_literal s)
        end
    end
  end.

Definition int (x : object) : exn + Z :=
  match x with
  | Int z => inr z
  | Str s => int_of_str s
  end.

(** *** [str.lower], on the ASCII letters (no other Latin-1 character
    lowers to an ASCII one, and the names compared are ASCII). *)
Definition lower_char (a : ascii) : ascii :=
  let c := code a in
  if (65 <=? c) && (c <=? 90) then ascii_of_N (c + 32) else a.

Fixpoint lower (s : string) : string :=
  match s with
  | EmptyString => EmptyString
  | String a s' => String (lower_char a) (lower s')
  end.

(** *** [html.escape(s, quote=False)] *)
Fixpoint html_escape (s : string) : string :=
  match s with
  | EmptyString => EmptyString
  | String a s' =>
    (if code a =? 38 then "&amp;"
     else if code a =? 60 then "&lt;"
     else if code a =? 62 then "&gt;"
     else String a EmptyString) +:+ html_escape s'
  end.

(** *** [json.dumps] of a [dict] from [str] to [str] *)

(** [py_encode_basestring_ascii] on one character: printable ASCII stays,
    but for the backslash and the double quote. *)
Definition json_char (a : ascii) : string :=
  let c := code a in
  if c =? 34 then String "092" dquote
  else if c =? 92 then "\\"
  else if c =? 10 then "\n"
  else if c =? 13 then "\r"
  else if c =? 9 then "\t"
  else if c =? 12 then "\f"
  else if c =? 8 then "\b"
  else if (32 <=? c) && (c <=? 126) then String a EmptyString
  else "\u" +:+ hex_fixed 4 c.

Fixpoint json_chars (s : string) : string :=
  match s with
  | EmptyString => EmptyString
  | String a s' => json_char a +:+ json_chars s'
  end.

Definition json_string (s : string) : string :=
  dquote +:+ json_chars s +:+ dquote.

Fixpoint json_items (d : list (string * string)) : string :=
  match d with
  | [] => EmptyString
  | [(k, v)] => json_string k +:+ ": " +:+ json_string v
  | (k, v) :: d' =>
    json_string k +:+ ": " +:+ json_string v +:+ ", " +:+ json_items d'
  end.

Definition json_dumps (d : list (string * string)) : string :=
  "{" +:+ json_items d +:+ "}".

End Py.

(* ===================================================================== *)
(** ** The inherited request handler *)
(* ===================================================================== *)

Module Http.

(** What reaches the socket: blocks of response lines, kept as the
    handler formatted them, and runs of payload bytes. *)
Inductive line :=
| StatusLine (version : string) (status : N) (message : string)
| HeaderLine (keyword value : string)
| BlankLine.

Inductive chunk :=
| Lines (ls : list line)
| Payload (bs : list byte).

(** What the static file responder of [SimpleHTTPRequestHandler.send_head]
    settles on for a request: an error page, or a status with headers and
    possibly a file to copy out. *)
Inductive static_plan :=
| PlanError (status : N) (message : string)
| PlanReply (status : N) (fields : list (string * string))
    (content : option (list byte)).

(** The handler object together with the process state it reaches. *)
Record state := State {
  (* the request, as [parse_request] left it *)
  command : string;
  path : string;
  headers : list (string * string);
  rfile : list byte;
  (* the response *)
  headers_buffer : list line;
  wfile : list chunk;
  close_connection : bool;
  (* the process *)
  files : gmap string (list byte);
  stdout : list string;
  (* class attributes and readings of the environment *)
  responses : N -> option (string * string);
  error_message_format : N -> string -> string -> string;
  version_string : string;
  date_time_string : string;
  send_head_plan :
    gmap string (list byte) -> string -> list (string * string) -> static_plan
}.

(** A method: it runs on the state and returns or raises, the state
    changes made up to a [raise] staying in place. *)
Definition M (A : Type) : Type := state -> (Py.exn + A) * state.

Definition ret {A} (a : A) : M A := fun st => (inr a, st).

Definition raise {A} (e : Py.exn) : M A := fun st => (inl e, st).

Definition bind {A B} (m : M A) (k : A -> M B) : M B :=
  fun st =>
    match m st with
    | (inl e, st') => (inl e, st')
    | (inr a, st') => k a st'
    end.

(** [try: body / except Exception as e: handler]. *)
Definition try_except {A} (body : M A) (handler : Py.exn -> M A) : M A :=
  fun st =>
    match body st with
    | (inl e, st') => handler e st'
    | (inr a, st') => (inr a, st')
    end.

Definition lift {A} (r : Py.exn + A) : M A :=
  match r with
  | inl e => raise e
  | inr a => ret a
  end.

Definition get {A} (field : state -> A) : M A := fun st => (inr (field st), st).

Definition modify (f : state -> state) : M unit := fun st => (inr tt, f st).

Declare Scope py_scope.
Delimit Scope py_scope with py.
Notation "x <~ m ;; k" := (bind m (fun x => k))
  (at level 100, m at next level, k at level 200, right associativity)
  : py_scope.
Notation "m ;; k" := (bind m (fun _ => k))
  (at level 100, k at level 200, right associativity) : py_scope.
Local Open Scope py_scope.

Definition set_headers_buffer (b : list line) (st : state) : state :=
  State (command st) (path st) (headers st) (rfile st) b (wfile st)
    (close_connection st) (files st) (stdout st) (responses st)
    (error_message_format st) (version_string st) (date_time_string st)
    (send_head_plan st).

Definition set_wfile (w : list chunk) (st : state) : state :=
  State (command st) (path st) (headers st) (rfile st) (headers_buffer st) w
    (close_connection st) (files st) (stdout st) (responses st)
    (error_message_format st) (version_string st) (date_time_string st)
    (send_head_plan st).

Definition set_close_connection (c : bool) (st : state) : state :=
  State (command st) (path st) (headers st) (rfile st) (headers_buffer st)
    (wfile st) c (files st) (stdout st) (responses st)
    (error_message_format st) (version_string st) (date_time_string st)
    (send_head_plan st).

Definition set_rfile (r : list byte) (st : state) : state :=
  State (command st) (path st) (headers st) r (headers_buffer st) (wfile st)
    (close_connection st) (files st) (stdout st) (responses st)
    (error_message_format st) (version_string st) (date_time_string st)
    (send_head_plan st).

Definition set_files (f : gmap string (list byte)) (st : state) : state :=
  State (command st) (path st) (headers st) (rfile st) (headers_buffer st)
    (wfile st) (close_connection st) f (stdout st) (responses st)
    (error_message_format st) (version_string st) (date_time_string st)
    (send_head_plan st).

Definition set_stdout (o : list string) (st : state) : state :=
  State (command st) (path st) (headers st) (rfile st) (headers_buffer st)
    (wfile st) (close_connection st) (files st) o (responses st)
    (error_message_format st) (version_string st) (date_time_string st)
    (send_head_plan st).

(** *** Request side *)

(** [self.headers.get(name, failobj)]: the value of the first field whose
    name matches, letter case aside. *)
Fixpoint lookup_header (name : string) (fields : list (string * string))
  : option string :=
  match fields with
  | [] => None
  | (k, v) :: fields' =>
    if String.eqb (Py.lower k) (Py.lower name) then Some v
    else lookup_header name fields'
  end.

Definition headers_get (name : string) (failobj : Py.object) : M Py.object :=
  fields <~ get headers ;;
  ret (match lookup_header name fields with
       | Some v => Py.Str v
       | None => failobj
       end).

(** [self.rfile.read(size)]: [size] bytes, fewer when the stream ends
    first; the whole stream for a negative [size]. *)
Definition read_count (size : Z) (input : list byte) : nat :=
  if (size <? 0)%Z then length input else Z.to_nat size.

Definition rfile_read (size : Z) : M (list byte) :=
  input <~ get rfile ;;
  let n := read_count size input in
  modify (set_rfile (skipn n input)) ;;
  ret (firstn n input).

(** *** Response side *)

Definition protocol_version : string := "HTTP/1.0".

Definition error_content_type : string := "text/html;charset=utf-8".

Definition buffer_line (l : line) : M unit :=
  modify (fun st => set_headers_buffer (headers_buffer st ++ [l]) st).

Definition wfile_write (c : chunk) : M unit :=
  modify (fun st => set_wfile (wfile st ++ [c]) st).

(** [self.responses[code][0]], empty for a code the table lacks. *)
Definition short_message (table : N -> option (string * string))
    (status : N) : string :=
  match table status with
  | Some (short, _) => short
  | None => EmptyString
  end.

Definition send_response_only (status : N) (message : option string)
  : M unit :=
  table <~ get responses ;;
  let message :=
    match message with
    | Some m => m
    | None => short_message table status
    end in
  buffer_line (StatusLine protocol_version status message).

Definition send_header (keyword value : string) : M unit :=
  buffer_line (HeaderLine keyword value) ;;
  if String.eqb (Py.lower keyword) "connection" then
    if String.eqb (Py.lower value) "close"
    then modify (set_close_connection true)
    else if String.eqb (Py.lower value) "keep-alive"
    then modify (set_close_connection false)
    else ret tt
  else ret tt.

(** [send_response]: the status line, then the [Server] and [Date]
    headers.  (The line [log_request] writes to stderr is left out, as is
    [log_error] in [send_error].) *)
Definition send_response (status : N) (message : option string) : M unit :=
  send_response_only status message ;;
  server <~ get version_string ;;
  send_header "Server" server ;;
  date <~ get date_time_string ;;
  send_header "Date" date.

Definition flush_headers : M unit :=
  buffered <~ get headers_buffer ;;
  wfile_write (Lines buffered) ;;
  modify (set_headers_buffer []).

(** [BaseHTTPRequestHandler.end_headers], what [super().end_headers()]
    runs. *)
Definition end_headers : M unit :=
  buffer_line BlankLine ;;
  flush_headers.

(** [content.encode('UTF-8', 'replace')]. *)
Definition encode_replace (s : string) : list byte :=
  flat_map (fun ch => match Utf8.encode_char ch with
                      | Some bs => map byte_of_N bs
                      | None => [byte_of_N 63]
                      end) (Py.codes s).

(** [send_error(code, message)].  It ends its header block through
    [self.end_headers()], the method of the class the handler is an
    instance of, which is why that method is an argument here. *)
Definition send_error (self_end_headers : M unit)
    (status : N) (message : option string) : M unit :=
  table <~ get responses ;;
  let '(shortmsg, longmsg) :=
    match table status with
    | Some entry => entry
    | None => ("???", "???")
    end in
  let message := match message with Some m => m | None => shortmsg end in
  let explain := longmsg in
  send_response status (Some message) ;;
  send_header "Connection" "close" ;;
  format <~ get error_message_format ;;
  let body :=
    if (200 <=? status)
       && negb ((status =? 204) || (status =? 205) || (status =? 304))
    then Some (encode_replace
                 (format status (Py.html_escape message)
                    (Py.html_escape explain)))
    else None in
  match body with
  | Some b =>
    send_header "Content-Type" error_content_type ;;
    send_header "Content-Length" (Py.str_N (N.of_nat (length b)))
  | None => ret tt
  end ;;
  self_end_headers ;;
  method <~ get command ;;
  match body with
  | Some ((_ :: _) as b) =>
    if String.eqb method "HEAD" then ret tt else wfile_write (Payload b)
  | _ => ret tt
  end.

(** [SimpleHTTPRequestHandler.send_head]: it carries out the plan of the
    static responder and hands back the file to copy, if any. *)
Fixpoint send_headers (fields : list (string * string)) : M unit :=
  match fields with
  | [] => ret tt
  | (k, v) :: fields' => send_header k v ;; send_headers fields'
  end.

Definition send_head (self_end_headers : M unit) : M (option (list byte)) :=
  plan <~ get send_head_plan ;;
  fs <~ get files ;;
  target <~ get path ;;
  fields <~ get headers ;;
  match plan fs target fields with
  | PlanError status message =>
    send_error self_end_headers status (Some message) ;;
    ret None
  | PlanReply status out content =>
    send_response status None ;;
    send_headers out ;;
    self_end_headers ;;
    ret content
  end.

(** [SimpleHTTPRequestHandler.do_GET] and [do_HEAD]. *)
Definition do_GET (self_end_headers : M unit) : M unit :=
  f <~ send_head self_end_headers ;;
  match f with
  | Some content => wfile_write (Payload content)
  | None => ret tt
  end.

Definition do_HEAD (self_end_headers : M unit) : M unit :=
  _ <~ send_head self_end_headers ;;
  ret tt.

(** *** The process *)

Definition print (text : string) : M unit :=
  modify (fun st => set_stdout (stdout st ++ [text]) st).

(** [os.linesep], on a POSIX host: one line feed. *)
Definition linesep : list N := [10].

(** What a text file opened with the default [newline] does to the text
    it is given: every line feed becomes [os.linesep]. *)
Definition translate_newlines (sep : list N) (text : Utf8.str) : Utf8.str :=
  flat_map (fun ch => if ch =? 10 then sep else [ch]) text.

(** [open(name, 'w', encoding='utf-8')]: the file is created or emptied. *)
Definition open_w (name : string) : M unit :=
  modify (fun st => set_files (<[name := []]> (files st)) st).

(** [f.write(text)] on the file opened as [name]. *)
Definition file_write (name : string) (text : Utf8.str) : M unit :=
  data <~ lift (Py.encode (translate_newlines linesep text)) ;;
  modify (fun st =>
    set_files (<[name := default [] (files st !! name) ++ data]> (files st))
      st).

End Http.

(* ===================================================================== *)
(** ** [class ReadingArchiveHandler(http.server.SimpleHTTPRequestHandler)] *)
(* ===================================================================== *)

Module ReadingArchiveHandler.
Import Http.
Local Open Scope py_scope.

(** [end_headers]: add the CORS header to every response, then let the
    base class finish the block. *)
Definition end_headers : M unit :=
  send_header "Access-Control-Allow-Origin" "*" ;;
  Http.end_headers.

(** The inherited methods, bound to this class. *)
Definition send_error : N -> option string -> M unit :=
  Http.send_error end_headers.

Definition do_GET : M unit := Http.do_GET end_headers.

Definition do_HEAD : M unit := Http.do_HEAD end_headers.

(** [handle_save_csv]. *)
Definition handle_save_csv : M unit :=
  try_except
    ((* Get content length *)
     length_field <~ headers_get "Content-Length" (Py.Int 0) ;;
     content_length <~ lift (Py.int length_field) ;;
     (* Read the CSV content *)
     raw <~ rfile_read content_length ;;
     csv_content <~ lift (Py.decode raw) ;;
     (* Write to articles.csv file *)
     open_w "articles.csv" ;;
     file_write "articles.csv" csv_content ;;
     (* Send success response *)
     send_response 200 None ;;
     send_header "Content-Type" "application/json" ;;
     send_header "Access-Control-Allow-Origin" "*" ;;
     send_header "Access-Control-Allow-Methods" "POST, OPTIONS" ;;
     send_header "Access-Control-Allow-Headers" "Content-Type" ;;
     end_headers ;;
     let response :=
       Py.json_dumps [("status", "success");
                      ("message", "CSV saved successfully")] in
     data <~ lift (Py.encode (Py.codes response)) ;;
     wfile_write (Payload data) ;;
     print "CSV file saved successfully")
    (fun e =>
       print ("Error saving CSV: " +:+ Py.str e) ;;
       send_error 500 (Some ("Internal Server Error: " +:+ Py.str e))).

(** [do_POST]. *)
Definition do_POST : M unit :=
  target <~ get path ;;
  if String.eqb target "/api/save-csv"
  then handle_save_csv
  else send_error 404 (Some "Not Found").

(** [do_OPTIONS]. *)
Definition do_OPTIONS : M unit :=
  send_response 200 None ;;
  send_header "Access-Control-Allow-Origin" "*" ;;
  send_header "Access-Control-Allow-Methods" "POST, GET, OPTIONS" ;;
  send_header "Access-Control-Allow-Headers" "Content-Type" ;;
  end_headers.

(** The dispatch of [handle_one_request] on ['do_' + self.command], over
    the methods this class has. *)
Definition handle_one_request : M unit :=
  method <~ get command ;;
  if String.eqb method "GET" then do_GET
  else if String.eqb method "HEAD" then do_HEAD
  else if String.eqb method "POST" then do_POST
  else if String.eqb method "OPTIONS" then do_OPTIONS
  else send_error 501
         (Some ("Unsupported method (" +:+ Py.repr method +:+ ")")).

End ReadingArchiveHandler.

(* ===================================================================== *)
(** ** Reading a run *)
(* ===================================================================== *)

Module Reply.
Import Http ReadingArchiveHandler.

(** The state a method leaves behind, and what it sent. *)
Definition after (m : M unit) (st : state) : state := snd (m st).

Definition sent (m : M unit) (st : state) : list chunk :=
  skipn (length (wfile st)) (wfile (after m st)).

(** The header blocks of a reply, and the payload that follows them. *)
Fixpoint blocks (r : list chunk) : list (list line) :=
  match r with
  | [] => []
  | Lines ls :: r' => ls :: blocks r'
  | Payload _ :: r' => blocks r'
  end.

Fixpoint body (r : list chunk) : list byte :=
  match r with
  | [] => []
  | Lines _ :: r' => body r'
  | Payload bs :: r' => bs ++ body r'
  end.

Fixpoint statuses (ls : list line) : list (N * string) :=
  match ls with
  | [] => []
  | StatusLine _ status message :: ls' => (status, message) :: statuses ls'
  | _ :: ls' => statuses ls'
  end.

Fixpoint fields (ls : list line) : list (string * string) :=
  match ls with
  | [] => []
  | HeaderLine k v :: ls' => (k, v) :: fields ls'
  | _ :: ls' => fields ls'
  end.

(** The status of a reply: that of its first status line. *)
Definition status (r : list chunk) : option N :=
  match statuses (concat (blocks r)) with
  | [] => None
  | (code, _) :: _ => Some code
  end.

Definition message (r : list chunk) : option string :=
  match statuses (concat (blocks r)) with
  | [] => None
  | (_, text) :: _ => Some text
  end.

Definition header_fields (r : list chunk) : list (string * string) :=
  fields (concat (blocks r)).

Definition header_line (f : string * string) : line :=
  HeaderLine (fst f) (snd f).

Definition field_eqb (a b : string * string) : bool :=
  String.eqb (fst a) (fst b) && String.eqb (snd a) (snd b).

(** How many times a header block carries the field [f]. *)
Definition occurrences (f : string * string) (ls : list line) : nat :=
  length (filter (field_eqb f) (fields ls)).

Definition allow_origin : string * string :=
  ("Access-Control-Allow-Origin", "*").


(** The text of a file as [open(name, encoding='utf-8', newline='')]
    followed by [read()] gives it. *)
Definition file_text (st : state) (name : string)
  : option (Utf8.decode_error + Utf8.str) :=
  option_map Utf8.decode (files st !! name).

(** The length [handle_save_csv] takes from the request: line 28. *)
Definition content_length (st : state) : Py.exn + Z :=
  Py.int (match lookup_header "Content-Length" (headers st) with
          | Some v => Py.Str v
          | None => Py.Int 0
          end).

Local Open Scope py_scope.

(** *** The runs of [handle_save_csv] and [send_error], named *)

Definition save_path : string := "/api/save-csv".
Definition archive : string := "articles.csv".

(** What the [except] branch of [handle_save_csv] runs. *)
Definition on_error (e : Py.exn) : M unit :=
  print ("Error saving CSV: " +:+ Py.str e) ;;
  send_error 500 (Some ("Internal Server Error: " +:+ Py.str e)).

Definition success_block (st : state) : list line :=
  [StatusLine protocol_version 200 (short_message (responses st) 200);
   HeaderLine "Server" (version_string st);
   HeaderLine "Date" (date_time_string st);
   HeaderLine "Content-Type" "application/json";
   HeaderLine "Access-Control-Allow-Origin" "*";
   HeaderLine "Access-Control-Allow-Methods" "POST, OPTIONS";
   HeaderLine "Access-Control-Allow-Headers" "Content-Type";
   HeaderLine "Access-Control-Allow-Origin" "*";
   BlankLine].

Definition options_block (st : state) : list line :=
  [StatusLine protocol_version 200 (short_message (responses st) 200);
   HeaderLine "Server" (version_string st);
   HeaderLine "Date" (date_time_string st);
   HeaderLine "Access-Control-Allow-Origin" "*";
   HeaderLine "Access-Control-Allow-Methods" "POST, GET, OPTIONS";
   HeaderLine "Access-Control-Allow-Headers" "Content-Type";
   HeaderLine "Access-Control-Allow-Origin" "*";
   BlankLine].

Definition success_json : list byte :=
  Eval vm_compute in
    match Py.encode (Py.codes (Py.json_dumps
            [("status", "success"); ("message", "CSV saved successfully")]))
    with
    | inr data => data
    | inl _ => []
    end.

(** The page [send_error] builds, if the status allows one. *)
Definition error_page (st : state) (status : N) (message : string)
  : option (list byte) :=
  let explain :=
    match responses st status with
    | Some (_, long) => long
    | None => "???"
    end in
  if (200 <=? status)
     && negb ((status =? 204) || (status =? 205) || (status =? 304))
  then Some (encode_replace
               (error_message_format st status (Py.html_escape message)
                  (Py.html_escape explain)))
  else None.

Definition error_block (st : state) (status : N) (message : string)
  : list line :=
  [StatusLine protocol_version status message;
   HeaderLine "Server" (version_string st);
   HeaderLine "Date" (date_time_string st);
   HeaderLine "Connection" "close"]
  ++ match error_page st status message with
     | Some page =>
       [HeaderLine "Content-Type" error_content_type;
        HeaderLine "Content-Length" (Py.str_N (N.of_nat (length page)))]
     | None => []
     end
  ++ [HeaderLine "Access-Control-Allow-Origin" "*"; BlankLine].

Definition error_payload (st : state) (status : N) (message : string)
  : list chunk :=
  match error_page st status message with
  | Some ((_ :: _) as page) =>
    if String.eqb (command st) "HEAD" then [] else [Payload page]
  | _ => []
  end.

(** The reply of the [except] branch of [handle_save_csv]. *)
Definition error_reply (st : state) (e : Py.exn) : list chunk :=
  Lines (error_block st 500 ("Internal Server Error: " +:+ Py.str e))
  :: error_payload st 500 ("Internal Server Error: " +:+ Py.str e).


End Reply.

(* ===================================================================== *)
(** ** Sample requests *)
(* ===================================================================== *)

Module Sample.
Import Http.

Definition bytes_of (s : string) : list byte :=
  map (fun c => byte_of_N c) (Py.codes s).

Definition line_feed : string := String "010" EmptyString.

Definition responses (status : N) : option (string * string) :=
  if status =? 200 then Some ("OK", "Request fulfilled, document follows")
  else if status =? 404 then Some ("Not Found", "Nothing matches the given URI")
  else if status =? 500
  then Some ("Internal Server Error", "Server got itself in trouble")
  else if status =? 501
  then Some ("Not Implemented", "Server does not support this operation")
  else None.

Definition error_page (status : N) (message explain : string) : string :=
  "Error code: " +:+ Py.str_N status +:+ ", message: " +:+ message
  +:+ ", explanation: " +:+ explain.

Definition no_static_file (fs : gmap string (list byte)) (target : string)
    (fields : list (string * string)) : static_plan :=
  match fs !! target with
  | Some content =>
    PlanReply 200 [("Content-Length", Py.str_N (N.of_nat (length content)))]
      (Some content)
  | None => PlanError 404 "File not found"
  end.

(** A request on a fresh connection. *)
Definition request (method target : string) (fields : list (string * string))
    (input : list byte) (fs : gmap string (list byte)) : state :=
  State method target fields input [] [] true fs []
    responses error_page "SimpleHTTP/0.6 Python/3.11.2"
    "Wed, 04 Nov 2026 12:00:00 GMT" no_static_file.

(** The body [id,title\n1,Foo\n] of the scenario, 15 bytes, and the 14
    bytes before its last line feed. *)
Definition csv_body : list byte :=
  bytes_of ("id,title" +:+ line_feed +:+ "1,Foo" +:+ line_feed).

Definition csv_body_14 : list byte :=
  bytes_of ("id,title" +:+ line_feed +:+ "1,Foo").

(** The text [{"status": "success", "message": "CSV saved successfully"}]. *)
Definition quoted (s : string) : string := Py.dquote +:+ s +:+ Py.dquote.

Definition success_text : string :=
  "{" +:+ quoted "status" +:+ ": " +:+ quoted "success" +:+ ", "
  +:+ quoted "message" +:+ ": " +:+ quoted "CSV saved successfully" +:+ "}".

(** The requests the statements below are tried on. *)
Definition scenario : state :=
  request "POST" "/api/save-csv" [("Content-Length", "14")] csv_body ∅.

(** A shorter save, on the files the scenario left. *)
Definition second_save : state :=
  request "POST" "/api/save-csv" [("Content-Length", "3")] (bytes_of "x,y")
    (files (snd (ReadingArchiveHandler.handle_one_request scenario))).

End Sample.

(* ===================================================================== *)
(** ** The outcomes of a save, as states *)
(* ===================================================================== *)

Module Outcome.
Import Http Reply ReadingArchiveHandler.

(** The bytes line 31 takes from the stream for a declared size, and the
    bytes it leaves there. *)
Definition taken (size : Z) (st : state) : list byte :=
  firstn (read_count size (rfile st)) (rfile st).

Definition left_over (size : Z) (st : state) : list byte :=
  skipn (read_count size (rfile st)) (rfile st).

(** The state after a save that went through. *)
Definition saved (size : Z) (st : state) : state :=
  set_stdout (stdout st ++ ["CSV file saved successfully"])
    (set_wfile (wfile st ++ [Lines (success_block st); Payload success_json])
       (set_files (<["articles.csv" := taken size st]> (files st))
          (set_rfile (left_over size st) st))).

(** The state after the [except] branch ran for [e]. *)
Definition failed (e : Py.exn) (st : state) : state :=
  set_close_connection true
    (set_wfile (wfile st ++ error_reply st e)
       (set_stdout (stdout st ++ ["Error saving CSV: " +:+ Py.str e]) st)).

(** Where [handle_save_csv] takes a state. *)
Definition save_result (st : state) : state :=
  match content_length st with
  | inl e => failed e st
  | inr size =>
    match Utf8.decode (taken size st) with
    | inl d =>
      failed (Py.UnicodeDecodeError d) (set_rfile (left_over size st) st)
    | inr _ => saved size st
    end
  end.

(** What a failed decode reports, for a decoder started at offset [pos]:
    a range inside the input that begins at the byte it names, behind a
    prefix that decodes. *)
Definition points_inside (pos : N) (s : list byte) (e : Utf8.decode_error)
  : Prop :=
  pos <= Utf8.err_start e /\
  Utf8.err_start e < Utf8.err_stop e <= pos + N.of_nat (length s) /\
  nth_error s (N.to_nat (Utf8.err_start e - pos)) = Some (Utf8.err_byte e) /\
  exists t,
    Utf8.decode_from pos (firstn (N.to_nat (Utf8.err_start e - pos)) s)
    = inr t.

(** The code points text can hold: Unicode scalar values. *)
Definition is_scalar (ch : N) : bool :=
  (ch <? 0x110000) && negb ((0xD800 <=? ch) && (ch <=? 0xDFFF)).

(** Text without control characters (no CR, no LF among them). *)
Definition no_control (s : string) : bool :=
  forallb (fun c => 32 <=? c) (Py.codes s).

(** A request for the save endpoint. *)
Definition is_save (st : state) : bool :=
  String.eqb (command st) "POST" && String.eqb (path st) "/api/save-csv".

(** What a run that is not a save leaves alone. *)
Definition untouched (st st' : state) : Prop :=
  headers_buffer st' = [] /\ files st' = files st /\
  stdout st' = stdout st /\ rfile st' = rfile st.


End Outcome.

(* ===================================================================== *)
(** ** [run_server] *)
(* ===================================================================== *)

Module Server.
Import Http ReadingArchiveHandler.

(** What the process keeps from one request to the next: the files of the
    working directory and what it has printed. *)
Record process := Process {
  disk : gmap string (list byte);
  printed : list string
}.

(** A request arrives as the state [parse_request] leaves a handler in.
    The handler runs on the files and the output of the process as they are
    at that moment, and starts without buffered header lines. *)
Definition arrive (p : process) (request : state) : state :=
  set_stdout (printed p) (set_files (disk p) (set_headers_buffer [] request)).

(** One request: the process afterwards, and the reply. *)
Definition serve (p : process) (request : state) : process * list chunk :=
  let st := arrive p request in
  let st' := snd (handle_one_request st) in
  (Process (files st') (stdout st'), skipn (length (wfile st)) (wfile st')).

(** [httpd.serve_forever()] up to the interrupt: a [TCPServer] handles the
    requests one at a time, in the order they arrive. *)
Fixpoint serve_forever (requests : list state) (p : process)
  : process * list (list chunk) :=
  match requests with
  | [] => (p, [])
  | r :: rest =>
    let (p1, reply) := serve p r in
    let (p2, replies) := serve_forever rest p1 in
    (p2, reply :: replies)
  end.

Definition new_line : string := String "010" EmptyString.

(** [run_server(port)]: the two lines of the banner, the requests until
    Ctrl+C, the farewell. *)
Definition run_server (port : N) (requests : list state) (p : process)
  : process * list (list chunk) :=
  let p0 :=
    Process (disk p)
      (printed p ++
       ["Server running at http://localhost:" +:+ Py.str_N port +:+ "/";
        "Press Ctrl+C to stop the server"]) in
  let (p1, replies) := serve_forever requests p0 in
  (Process (disk p1) (printed p1 ++ [new_line +:+ "Server stopped."]),
   replies).

(** [run_server()], as the script calls it. *)
Definition main (requests : list state) (p : process)
  : process * list (list chunk) :=
  run_server 8000 requests p.

End Server.

(* ===================================================================== *)
(** ** Facts about bytes *)
(* ===================================================================== *)

Lemma byte_of_to_N (b : byte) : byte_of_N (Byte.to_N b) = b.
Proof. unfold byte_of_N. now rewrite Byte.of_to_N. Qed.

Lemma all_below_spec (n : nat) (P : N -> bool) :
  all_below n P = true -> forall x, x < N.of_nat n -> P x = true.
Proof.
  induction n as [|k IH]; intros Hall x Hx.
  - lia.
  - cbn [all_below] in Hall. apply andb_prop in Hall as [Hk Hrest].
    destruct (N.eq_dec x (N.of_nat k)) as [->|Hne]; [exact Hk|].
    apply IH; [exact Hrest|lia].
Qed.

(* ===================================================================== *)
(** ** Facts about the codec *)
(* ===================================================================== *)

Module Utf8Facts.
Import Utf8.

Lemma lor_0x80 x : x < 64 -> N.lor 0x80 x = 0x80 + x.
Proof.
  intros H. apply N.eqb_eq.
  exact (all_below_spec 64 (fun x => N.lor 0x80 x =? 0x80 + x) eq_refl x H).
Qed.

Lemma lor_0xC0 x : x < 32 -> N.lor 0xC0 x = 0xC0 + x.
Proof.
  intros H. apply N.eqb_eq.
  exact (all_below_spec 32 (fun x => N.lor 0xC0 x =? 0xC0 + x) eq_refl x H).
Qed.

Lemma lor_0xE0 x : x < 16 -> N.lor 0xE0 x = 0xE0 + x.
Proof.
  intros H. apply N.eqb_eq.
  exact (all_below_spec 16 (fun x => N.lor 0xE0 x =? 0xE0 + x) eq_refl x H).
Qed.

Lemma lor_0xF0 x : x < 8 -> N.lor 0xF0 x = 0xF0 + x.
Proof.
  intros H. apply N.eqb_eq.
  exact (all_below_spec 8 (fun x => N.lor 0xF0 x =? 0xF0 + x) eq_refl x H).
Qed.

Lemma low6 x : N.land x 0x3F = x mod 64.
Proof. change 0x3F with (N.ones 6). now rewrite N.land_ones. Qed.

Lemma shiftr_6 x : N.shiftr x 6 = x / 64.
Proof. now rewrite N.shiftr_div_pow2. Qed.
Lemma shiftr_12 x : N.shiftr x 12 = x / 4096.
Proof. now rewrite N.shiftr_div_pow2. Qed.
Lemma shiftr_18 x : N.shiftr x 18 = x / 262144.
Proof. now rewrite N.shiftr_div_pow2. Qed.

Lemma is_continuation_range ch :
  is_continuation ch = true -> 0x80 <= ch < 0xC0.
Proof.
  unfold is_continuation. rewrite andb_true_iff, N.leb_le, N.ltb_lt. tauto.
Qed.

Lemma encode_join2 ch ch2 :
  0xC2 <= ch < 0xE0 -> is_continuation ch2 = true ->
  encode_char (join2 ch ch2) = Some [ch; ch2].
Proof.
  intros Hch H2. apply is_continuation_range in H2.
  unfold join2. rewrite !N.shiftl_mul_pow2.
  change (2 ^ 6) with 64. change (0xC0 * 64 + 0x80) with 12416.
  set (c := ch * 64 + ch2 - 12416).
  assert (Hc : c = (ch - 0xC0) * 64 + (ch2 - 0x80)) by (unfold c; lia).
  clearbody c.
  unfold encode_char.
  destruct (N.ltb_spec c 0x80); [exfalso; lia|].
  destruct (N.ltb_spec c 0x800); [|exfalso; lia].
  rewrite shiftr_6, low6.
  assert (c / 64 = ch - 0xC0)
    by (symmetry; apply N.div_unique with (r := ch2 - 0x80); lia).
  assert (c mod 64 = ch2 - 0x80)
    by (symmetry; apply N.mod_unique with (q := ch - 0xC0); lia).
  rewrite lor_0xC0, lor_0x80 by lia.
  f_equal. f_equal; [lia|]. f_equal. lia.
Qed.

Lemma split64 hi lo : lo < 64 -> (hi * 64 + lo) / 64 = hi /\ (hi * 64 + lo) mod 64 = lo.
Proof.
  intros Hlo. split; symmetry.
  - apply N.div_unique with (r := lo); lia.
  - apply N.mod_unique with (q := hi); lia.
Qed.

Lemma encode_join3 ch ch2 ch3 :
  0xE0 <= ch < 0xF0 -> is_continuation ch2 = true ->
  (if ch2 <? 0xA0 then ch =? 0xE0 else ch =? 0xED) = false ->
  is_continuation ch3 = true ->
  encode_char (join3 ch ch2 ch3) = Some [ch; ch2; ch3].
Proof.
  intros Hch H2 Hform H3.
  apply is_continuation_range in H2. apply is_continuation_range in H3.
  assert (Hlo : ch = 0xE0 -> 0xA0 <= ch2)
    by (destruct (N.ltb_spec ch2 0xA0); [apply N.eqb_neq in Hform|]; lia).
  assert (Hsur : ch = 0xED -> ch2 < 0xA0)
    by (destruct (N.ltb_spec ch2 0xA0); [|apply N.eqb_neq in Hform]; lia).
  unfold join3. rewrite !N.shiftl_mul_pow2.
  change (2 ^ 12) with 4096. change (2 ^ 6) with 64.
  change (0xE0 * 4096 + 0x80 * 64 + 0x80) with 925824.
  set (c := ch * 4096 + ch2 * 64 + ch3 - 925824).
  set (m := (ch - 0xE0) * 64 + (ch2 - 0x80)).
  assert (Hc : c = m * 64 + (ch3 - 0x80)) by (unfold c, m; lia).
  assert (Hm : m = (ch - 0xE0) * 64 + (ch2 - 0x80)) by reflexivity.
  clearbody c m.
  destruct (split64 m (ch3 - 0x80)) as [Hq Hr]; [lia|].
  destruct (split64 (ch - 0xE0) (ch2 - 0x80)) as [Hq' Hr']; [lia|].
  rewrite <- Hc in Hq, Hr. rewrite <- Hm in Hq', Hr'.
  unfold encode_char.
  destruct (N.ltb_spec c 0x80); [exfalso; lia|].
  destruct (N.ltb_spec c 0x800); [exfalso; lia|].
  destruct (N.ltb_spec c 0x10000); [|exfalso; lia].
  destruct (N.leb_spec 0xD800 c); destruct (N.leb_spec c 0xDFFF);
    cbn [andb]; try (exfalso; lia).
  all: rewrite shiftr_6, !low6, Hq, Hr, Hr';
    replace (N.shiftr c 12) with (m / 64)
      by (rewrite shiftr_12, <- Hq, N.Div0.div_div; reflexivity);
    rewrite Hq', lor_0xE0, !lor_0x80 by lia;
    repeat f_equal; lia.
Qed.

Lemma encode_join4 ch ch2 ch3 ch4 :
  0xF0 <= ch < 0xF5 -> is_continuation ch2 = true ->
  (if ch2 <? 0x90 then ch =? 0xF0 else ch =? 0xF4) = false ->
  is_continuation ch3 = true -> is_continuation ch4 = true ->
  encode_char (join4 ch ch2 ch3 ch4) = Some [ch; ch2; ch3; ch4].
Proof.
  intros Hch H2 Hform H3 H4.
  apply is_continuation_range in H2. apply is_continuation_range in H3.
  apply is_continuation_range in H4.
  assert (Hlo : ch = 0xF0 -> 0x90 <= ch2)
    by (destruct (N.ltb_spec ch2 0x90); [apply N.eqb_neq in Hform|]; lia).
  assert (Hhi : ch = 0xF4 -> ch2 < 0x90)
    by (destruct (N.ltb_spec ch2 0x90); [|apply N.eqb_neq in Hform]; lia).
  unfold join4. rewrite !N.shiftl_mul_pow2.
  change (2 ^ 18) with 262144. change (2 ^ 12) with 4096.
  change (2 ^ 6) with 64.
  change (0xF0 * 262144 + 0x80 * 4096 + 0x80 * 64 + 0x80) with 63447168.
  set (c := ch * 262144 + ch2 * 4096 + ch3 * 64 + ch4 - 63447168).
  set (m := (ch - 0xF0) * 64 + (ch2 - 0x80)).
  set (k := m * 64 + (ch3 - 0x80)).
  assert (Hc : c = k * 64 + (ch4 - 0x80)) by (unfold c, k, m; lia).
  assert (Hk : k = m * 64 + (ch3 - 0x80)) by reflexivity.
  assert (Hm : m = (ch - 0xF0) * 64 + (ch2 - 0x80)) by reflexivity.
  clearbody c k m.
  destruct (split64 k (ch4 - 0x80)) as [Hq Hr]; [lia|].
  destruct (split64 m (ch3 - 0x80)) as [Hq' Hr']; [lia|].
  destruct (split64 (ch - 0xF0) (ch2 - 0x80)) as [Hq'' Hr'']; [lia|].
  rewrite <- Hc in Hq, Hr. rewrite <- Hk in Hq', Hr'.
  rewrite <- Hm in Hq'', Hr''.
  unfold encode_char.
  destruct (N.ltb_spec c 0x80); [exfalso; lia|].
  destruct (N.ltb_spec c 0x800); [exfalso; lia|].
  destruct (N.ltb_spec c 0x10000); [exfalso; lia|].
  destruct (N.ltb_spec c 0x110000); [|exfalso; lia].
  rewrite shiftr_6, !low6, Hq, Hr, Hr'.
  replace (N.shiftr c 12) with m
    by (rewrite shiftr_12, <- Hq', <- Hq, N.Div0.div_div; reflexivity).
  replace (N.shiftr c 18) with (ch - 0xF0)
    by (rewrite shiftr_18, <- Hq'', <- Hq', <- Hq, !N.Div0.div_div;
        reflexivity).
  rewrite Hr'', lor_0xF0, !lor_0x80 by lia.
  repeat f_equal; lia.
Qed.


Lemma more_inr c r t :
  more c r = inr t -> exists t', r = inr t' /\ t = c :: t'.
Proof. destruct r as [e|t']; cbn; [discriminate|]. intros [= <-]. eauto. Qed.

Lemma encode_from_cons i ch bs t s :
  encode_char ch = Some (map Byte.to_N bs) ->
  encode_from (i + 1) t = inr s ->
  encode_from i (ch :: t) = inr (bs ++ s).
Proof.
  intros Hch Ht. cbn [encode_from]. rewrite Hch, Ht.
  rewrite map_map. do 2 f_equal.
  rewrite <- (map_id bs) at 2. apply map_ext. exact byte_of_to_N.
Qed.

Lemma ltb_range_false a lo hi :
  (a <? lo) = false -> (a <? hi) = true -> lo <= a < hi.
Proof. rewrite N.ltb_ge, N.ltb_lt. tauto. Qed.

(** Encoding undoes a successful decode, whatever the offsets the two
    functions count from. *)
Lemma encode_decode_from (n : nat) :
  forall s, (length s <= n)%nat ->
  forall pos i t, decode_from pos s = inr t -> encode_from i t = inr s.
Proof.
  induction n as [|n IH]; intros s Hlen pos i t Hdec.
  - destruct s; [|cbn in Hlen; lia]. cbn in Hdec. now injection Hdec as <-.
  - destruct s as [|b s1]; [cbn in Hdec; now injection Hdec as <-|].
    cbn [length] in Hlen. cbn [decode_from] in Hdec. cbv zeta in Hdec.
    destruct (Byte.to_N b <? 0x80) eqn:E1.
    { apply more_inr in Hdec as (t' & Hrec & ->).
      apply (encode_from_cons i _ [b]).
      - unfold encode_char. now rewrite E1.
      - apply (IH s1 ltac:(lia) _ _ _ Hrec). }
    destruct (Byte.to_N b <? 0xE0) eqn:E2.
    { destruct (Byte.to_N b <? 0xC2) eqn:E2'; [discriminate|].
      destruct s1 as [|b2 s2]; [discriminate|].
      destruct (is_continuation (Byte.to_N b2)) eqn:C2; [|discriminate].
      cbn [negb] in Hdec. cbn [length] in Hlen.
      apply more_inr in Hdec as (t' & Hrec & ->).
      apply (encode_from_cons i _ [b; b2]).
      - apply encode_join2; [apply ltb_range_false|]; assumption.
      - apply (IH s2 ltac:(lia) _ _ _ Hrec). }
    destruct (Byte.to_N b <? 0xF0) eqn:E3.
    { destruct s1 as [|b2 s2]; [discriminate|].
      destruct (is_continuation (Byte.to_N b2)) eqn:C2; [|discriminate].
      cbn [negb orb] in Hdec.
      destruct (if Byte.to_N b2 <? 0xA0 then Byte.to_N b =? 0xE0
                else Byte.to_N b =? 0xED) eqn:F; [discriminate|].
      destruct s2 as [|b3 s3]; [discriminate|].
      destruct (is_continuation (Byte.to_N b3)) eqn:C3; [|discriminate].
      cbn [negb] in Hdec. cbn [length] in Hlen.
      apply more_inr in Hdec as (t' & Hrec & ->).
      apply (encode_from_cons i _ [b; b2; b3]).
      - apply encode_join3; [apply ltb_range_false| | |]; assumption.
      - apply (IH s3 ltac:(lia) _ _ _ Hrec). }
    destruct (Byte.to_N b <? 0xF5) eqn:E4; [|discriminate].
    destruct s1 as [|b2 s2]; [discriminate|].
    destruct (is_continuation (Byte.to_N b2)) eqn:C2; [|discriminate].
    cbn [negb orb] in Hdec.
    destruct (if Byte.to_N b2 <? 0x90 then Byte.to_N b =? 0xF0
              else Byte.to_N b =? 0xF4) eqn:F; [discriminate|].
    destruct s2 as [|b3 s3]; [discriminate|].
    destruct (is_continuation (Byte.to_N b3)) eqn:C3; [|discriminate].
    cbn [negb] in Hdec.
    destruct s3 as [|b4 s4]; [discriminate|].
    destruct (is_continuation (Byte.to_N b4)) eqn:C4; [|discriminate].
    cbn [negb] in Hdec. cbn [length] in Hlen.
    apply more_inr in Hdec as (t' & Hrec & ->).
    apply (encode_from_cons i _ [b; b2; b3; b4]).
    + apply encode_join4; [apply ltb_range_false| | | |]; assumption.
    + apply (IH s4 ltac:(lia) _ _ _ Hrec).
Qed.

(** [bytes.decode('utf-8')] followed by [str.encode('utf-8')] gives the
    bytes back. *)
Lemma encode_decode s t : decode s = inr t -> encode t = inr s.
Proof. apply (encode_decode_from (length s)). lia. Qed.

End Utf8Facts.

(* ===================================================================== *)
(** ** Facts about the handler *)
(* ===================================================================== *)

Module HandlerFacts.
Import Http Reply ReadingArchiveHandler.
Local Open Scope py_scope.

Lemma skipn_own_length {A} (l r : list A) : skipn (length l) (l ++ r) = r.
Proof. induction l as [|a l IH]; [reflexivity|exact IH]. Qed.

Lemma sent_of (m : M unit) st st' a r :
  m st = (a, st') -> wfile st' = wfile st ++ r -> sent m st = r.
Proof.
  intros Hrun Hw. unfold sent, after. rewrite Hrun. cbn [snd].
  rewrite Hw. apply skipn_own_length.
Qed.

(** *** The inherited primitives, step by step *)

Lemma bind_ok {A B} (m : M A) (k : A -> M B) st a st' :
  m st = (inr a, st') -> bind m k st = k a st'.
Proof. intros H. unfold bind. now rewrite H. Qed.

Ltac run_steps :=
  cbv beta iota zeta delta
    [bind get ret lift raise modify buffer_line wfile_write print
     set_headers_buffer set_wfile set_close_connection set_rfile
     set_files set_stdout];
  cbn [command path headers rfile headers_buffer wfile close_connection
       files stdout responses error_message_format version_string
       date_time_string send_head_plan].

(** A header other than [Connection] only joins the buffer. *)
Lemma send_header_run keyword value st :
  String.eqb (Py.lower keyword) "connection" = false ->
  send_header keyword value st =
    (inr tt,
     set_headers_buffer (headers_buffer st ++ [HeaderLine keyword value]) st).
Proof.
  intros Hk. destruct st. unfold send_header, bind, buffer_line, modify.
  rewrite Hk. reflexivity.
Qed.

Lemma send_header_close_run st :
  send_header "Connection" "close" st =
    (inr tt,
     set_close_connection true
       (set_headers_buffer
          (headers_buffer st ++ [HeaderLine "Connection" "close"]) st)).
Proof. destruct st. reflexivity. Qed.

Lemma send_response_run status message st :
  send_response status message st =
    (inr tt,
     set_headers_buffer
       (headers_buffer st ++
        [StatusLine protocol_version status
           (match message with
            | Some m => m
            | None => short_message (responses st) status
            end);
         HeaderLine "Server" (version_string st);
         HeaderLine "Date" (date_time_string st)]) st).
Proof.
  destruct st. unfold send_response, send_response_only. run_steps.
  rewrite send_header_run by reflexivity. run_steps.
  rewrite send_header_run by reflexivity. run_steps.
  rewrite <- !app_assoc. reflexivity.
Qed.

(** The overridden [end_headers]: the CORS header, the blank line, and
    the block goes out. *)
Lemma end_headers_run st :
  end_headers st =
    (inr tt,
     set_headers_buffer []
       (set_wfile
          (wfile st ++
           [Lines (headers_buffer st ++
                   [HeaderLine "Access-Control-Allow-Origin" "*";
                    BlankLine])]) st)).
Proof.
  destruct st. unfold end_headers, Http.end_headers, flush_headers.
  run_steps. rewrite send_header_run by reflexivity. run_steps.
  rewrite <- !app_assoc. reflexivity.
Qed.

(** [handle_save_csv], outcome by outcome. *)
Lemma handle_save_csv_cases st :
  headers_buffer st = [] ->
  handle_save_csv st =
    match content_length st with
    | inl e => on_error e st
    | inr size =>
      let n := read_count size (rfile st) in
      let st1 := set_rfile (skipn n (rfile st)) st in
      match Py.decode (firstn n (rfile st)) with
      | inl e => on_error e st1
      | inr text =>
        let st2 := set_files (<[archive := []]> (files st)) st1 in
        match Py.encode (translate_newlines linesep text) with
        | inl e => on_error e st2
        | inr data =>
          (inr tt,
           set_stdout (stdout st ++ ["CSV file saved successfully"])
             (set_wfile
                (wfile st ++ [Lines (success_block st); Payload success_json])
                (set_files (<[archive := data]> (files st)) st1)))
        end
      end
    end.
Proof.
  destruct st as [cmd target fields input buffer out cc fs log table fmt srv
                  date plan].
  cbn [headers_buffer]. intros ->.
  cbv beta iota zeta delta
    [handle_save_csv content_length try_except bind headers_get get lift ret
     raise rfile_read modify open_w file_write on_error
     headers rfile files stdout wfile responses version_string
     date_time_string set_rfile set_files command path headers_buffer
     close_connection error_message_format send_head_plan].
  destruct (Py.int _) as [e|size]; [reflexivity|].
  destruct (Py.decode _) as [e|text]; [reflexivity|].
  destruct (Py.encode (translate_newlines _ _)) as [e|data]; [reflexivity|].
  rewrite lookup_insert_eq, insert_insert_eq.
  replace (out ++ [Lines _; Payload success_json])
    with ((out ++ [Lines (success_block
             (State cmd target fields input [] out cc fs log table fmt srv
                date plan))]) ++ [Payload success_json])
    by (rewrite <- app_assoc; reflexivity).
  reflexivity.
Qed.

(** [send_error] with a message: one header block, closed by the overridden
    [end_headers], then the page. *)
Lemma send_error_run st status message :
  headers_buffer st = [] ->
  send_error status (Some message) st =
    (inr tt,
     set_close_connection true
       (set_wfile
          (wfile st ++ Lines (error_block st status message)
                       :: error_payload st status message) st)).
Proof.
  destruct st as [cmd target fields input buffer out cc fs log table fmt srv
                  date plan].
  cbn [headers_buffer]. intros ->.
  unfold error_block, error_payload, error_page, send_error, Http.send_error.
  cbn [responses error_message_format command version_string
       date_time_string wfile].
  run_steps.
  destruct (table status) as [[short long]|]; run_steps;
    rewrite send_response_run; run_steps;
    rewrite send_header_close_run; run_steps;
    (destruct ((200 <=? status)
               && negb ((status =? 204) || (status =? 205) || (status =? 304)));
     run_steps;
     [rewrite !send_header_run by reflexivity; run_steps|];
     rewrite end_headers_run; run_steps;
     [destruct (encode_replace _) as [|b page];
      [|destruct (String.eqb cmd "HEAD")]|];
     run_steps; cbn [app]; rewrite <- ?app_assoc; reflexivity).
Qed.


Lemma on_error_run e st :
  headers_buffer st = [] ->
  on_error e st =
    (inr tt,
     set_close_connection true
       (set_wfile
          (wfile st ++
           Lines (error_block st 500 ("Internal Server Error: " +:+ Py.str e))
           :: error_payload st 500 ("Internal Server Error: " +:+ Py.str e))
          (set_stdout (stdout st ++ ["Error saving CSV: " +:+ Py.str e]) st))).
Proof.
  intros Hbuf. unfold on_error.
  erewrite bind_ok by reflexivity.
  rewrite send_error_run by (destruct st; exact Hbuf).
  destruct st; reflexivity.
Qed.

(** *** Dispatch *)

Lemma dispatch_POST st :
  command st = "POST" -> handle_one_request st = do_POST st.
Proof.
  intros H. unfold handle_one_request. erewrite bind_ok by reflexivity.
  rewrite H. reflexivity.
Qed.

Lemma dispatch_OPTIONS st :
  command st = "OPTIONS" -> handle_one_request st = do_OPTIONS st.
Proof.
  intros H. unfold handle_one_request. erewrite bind_ok by reflexivity.
  rewrite H. reflexivity.
Qed.

Lemma do_POST_save st :
  path st = save_path -> do_POST st = handle_save_csv st.
Proof.
  intros H. unfold do_POST. erewrite bind_ok by reflexivity.
  rewrite H. reflexivity.
Qed.

Lemma do_POST_other st :
  path st <> save_path ->
  do_POST st = send_error 404 (Some "Not Found") st.
Proof.
  intros H. unfold do_POST. erewrite bind_ok by reflexivity.
  destruct (String.eqb_spec (path st) "/api/save-csv") as [E|_];
    [contradiction|reflexivity].
Qed.

(** *** The file, on a POSIX host *)

Lemma translate_newlines_posix text : translate_newlines linesep text = text.
Proof.
  induction text as [|ch text IH]; [reflexivity|].
  unfold translate_newlines in *. cbn [flat_map]. rewrite IH.
  destruct (N.eqb_spec ch 10) as [->|_]; reflexivity.
Qed.

Lemma decode_inr s t : Utf8.decode s = inr t -> Py.decode s = inr t.
Proof. intros H. unfold Py.decode. now rewrite H. Qed.

Lemma decode_inl s e :
  Utf8.decode s = inl e -> Py.decode s = inl (Py.UnicodeDecodeError e).
Proof. intros H. unfold Py.decode. now rewrite H. Qed.

Lemma decode_inr_inv s t : Py.decode s = inr t -> Utf8.decode s = inr t.
Proof. unfold Py.decode. destruct (Utf8.decode s); congruence. Qed.

(** What [f.write] stores for text that came out of the decoder is the
    bytes that went in. *)
Lemma written_bytes s t :
  Utf8.decode s = inr t ->
  Py.encode (translate_newlines linesep t) = inr s.
Proof.
  intros H. rewrite translate_newlines_posix. unfold Py.encode.
  now rewrite (Utf8Facts.encode_decode _ _ H).
Qed.

Lemma read_declared (body rest : list byte) :
  read_count (Z.of_nat (length body)) (body ++ rest) = length body /\
  firstn (length body) (body ++ rest) = body /\
  skipn (length body) (body ++ rest) = rest.
Proof.
  repeat split.
  - unfold read_count. destruct (Z.ltb_spec (Z.of_nat (length body)) 0);
      [lia|apply Nat2Z.id].
  - rewrite firstn_app, Nat.sub_diag, firstn_all. cbn. apply app_nil_r.
  - apply skipn_own_length.
Qed.

(** A save whose declared bytes decode: the whole run. *)
Lemma handle_save_csv_saves st (body rest : list byte) text :
  headers_buffer st = [] ->
  content_length st = inr (Z.of_nat (length body)) ->
  rfile st = body ++ rest ->
  Utf8.decode body = inr text ->
  handle_save_csv st =
    (inr tt,
     set_stdout (stdout st ++ ["CSV file saved successfully"])
       (set_wfile
          (wfile st ++ [Lines (success_block st); Payload success_json])
          (set_files (<[archive := body]> (files st))
             (set_rfile rest st)))).
Proof.
  intros Hbuf Hlen Hin Hdec.
  rewrite (handle_save_csv_cases st Hbuf), Hlen, Hin. cbv zeta.
  destruct (read_declared body rest) as (-> & -> & ->).
  rewrite (decode_inr _ _ Hdec), (written_bytes _ _ Hdec). reflexivity.
Qed.

Lemma handle_save_csv_rejects st (body rest : list byte) e :
  headers_buffer st = [] ->
  content_length st = inr (Z.of_nat (length body)) ->
  rfile st = body ++ rest ->
  Utf8.decode body = inl e ->
  handle_save_csv st = on_error (Py.UnicodeDecodeError e) (set_rfile rest st).
Proof.
  intros Hbuf Hlen Hin Hdec.
  rewrite (handle_save_csv_cases st Hbuf), Hlen, Hin. cbv zeta.
  destruct (read_declared body rest) as (-> & -> & ->).
  rewrite (decode_inl _ _ Hdec). reflexivity.
Qed.

End HandlerFacts.


Module ReplyFacts.
Import Http Reply ReadingArchiveHandler HandlerFacts.
Local Open Scope py_scope.

Lemma do_OPTIONS_run st :
  headers_buffer st = [] ->
  do_OPTIONS st =
    (inr tt, set_wfile (wfile st ++ [Lines (options_block st)]) st).
Proof. destruct st. cbn [headers_buffer]. intros ->. reflexivity. Qed.

(** *** The shape every reply has *)





(** *** [handle_save_csv]: the two ways it ends *)

Lemma save_outcomes st :
  headers_buffer st = [] ->
  (exists size text,
     content_length st = inr size /\
     Utf8.decode (firstn (read_count size (rfile st)) (rfile st)) = inr text /\
     sent handle_save_csv st
     = [Lines (success_block st); Payload success_json] /\
     files (after handle_save_csv st)
     = <["articles.csv" := firstn (read_count size (rfile st)) (rfile st)]>
         (files st)) \/
  (exists e,
     sent handle_save_csv st = error_reply st e /\
     files (after handle_save_csv st) = files st).
Proof.
  intros Hbuf. assert (Hrun := handle_save_csv_cases st Hbuf).
  destruct (content_length st) as [e|size] eqn:Hlen.
  - right. exists e. rewrite (on_error_run e st Hbuf) in Hrun. split.
    + eapply sent_of; [exact Hrun|destruct st; reflexivity].
    + unfold after. rewrite Hrun. destruct st. reflexivity.
  - cbv zeta in Hrun.
    destruct (Py.decode _) as [e|text] eqn:Hdec.
    + right. exists e.
      rewrite on_error_run in Hrun by (destruct st; exact Hbuf). split.
      * eapply sent_of; [exact Hrun|destruct st; reflexivity].
      * unfold after. rewrite Hrun. destruct st. reflexivity.
    + apply decode_inr_inv in Hdec.
      rewrite (written_bytes _ _ Hdec) in Hrun.
      left. exists size, text. repeat split; [exact Hdec| |].
      * eapply sent_of; [exact Hrun|destruct st; reflexivity].
      * unfold after. rewrite Hrun. destruct st. reflexivity.
Qed.


(** *** The inherited static responder *)

Lemma send_header_any keyword value st :
  exists cc,
    send_header keyword value st =
      (inr tt,
       set_close_connection cc
         (set_headers_buffer (headers_buffer st ++ [HeaderLine keyword value])
            st)).
Proof.
  destruct st as [cmd target fields input buffer out cc0 fs log table fmt srv
                  date plan].
  unfold send_header, bind, buffer_line, modify.
  destruct (String.eqb (Py.lower keyword) "connection");
    [destruct (String.eqb (Py.lower value) "close");
     [|destruct (String.eqb (Py.lower value) "keep-alive")]|];
    eexists; reflexivity.
Qed.

Lemma send_headers_run out st :
  exists cc,
    send_headers out st =
      (inr tt,
       set_close_connection cc
         (set_headers_buffer (headers_buffer st ++ map header_line out) st)).
Proof.
  revert st. induction out as [|[k v] out IH]; intros st.
  - exists (close_connection st). destruct st. cbn. now rewrite app_nil_r.
  - destruct (send_header_any k v st) as [cc Hk].
    cbn [send_headers]. rewrite (bind_ok _ _ _ _ _ Hk).
    destruct (IH (set_close_connection cc
                    (set_headers_buffer
                       (headers_buffer st ++ [HeaderLine k v]) st)))
      as [cc' Hrest].
    exists cc'. rewrite Hrest. destruct st. cbn.
    now rewrite <- app_assoc.
Qed.







(** *** What a reply says depends on the run only *)

Lemma sent_ext (m m' : M unit) st : m st = m' st -> sent m st = sent m' st.
Proof. intros H. unfold sent, after. now rewrite H. Qed.

Lemma after_ext (m m' : M unit) st : m st = m' st -> after m st = after m' st.
Proof. intros H. unfold after. now rewrite H. Qed.



Lemma error_reply_status st e : status (error_reply st e) = Some 500.
Proof. reflexivity. Qed.



End ReplyFacts.

(* ===================================================================== *)
(** ** The claims *)
(* ===================================================================== *)

Import Http Reply ReadingArchiveHandler HandlerFacts ReplyFacts.

(* A request is handled from a state whose header buffer is empty: the
    buffer is created by the first [send_response] and emptied each time a
    block is flushed.  Replies are read off [sent handle_one_request st],
    what the run added to [wfile]. *)

(** C1.  A POST to /api/save-csv whose Content-Length is the length of a
    body that is valid UTF-8: the handler returns, answers 200, and
    articles.csv then holds the body, whose text is exactly the decoding of
    the body, whatever the file held before (it is replaced, not extended). *)
Theorem save_csv_overwrites (st : state) (length_field : string)
    (body rest : list byte) (text : Utf8.str) :
  command st = "POST" ->
  path st = "/api/save-csv" ->
  headers_buffer st = [] ->
  lookup_header "Content-Length" (headers st) = Some length_field ->
  Py.int (Py.Str length_field) = inr (Z.of_nat (length body)) ->
  rfile st = body ++ rest ->
  Utf8.decode body = inr text ->
  fst (handle_one_request st) = inr tt /\
  status (sent handle_one_request st) = Some 200 /\
  files (after handle_one_request st) !! "articles.csv" = Some body /\
  file_text (after handle_one_request st) "articles.csv" = Some (inr text).
Proof.
  intros Hcmd Hpath Hbuf Hfield Hint Hin Hdec.
  assert (Hlen : content_length st = inr (Z.of_nat (length body)))
    by (unfold content_length; now rewrite Hfield).
  pose proof (handle_save_csv_saves st body rest text Hbuf Hlen Hin Hdec)
    as Hrun.
  rewrite <- (do_POST_save st Hpath), <- (dispatch_POST st Hcmd) in Hrun.
  assert (Hfile : files (after handle_one_request st) !! "articles.csv"
                  = Some body).
  { unfold after. rewrite Hrun. destruct st. cbn. apply lookup_insert_eq. }
  repeat split.
  - now rewrite Hrun.
  - erewrite sent_of; [|exact Hrun|destruct st; reflexivity]. reflexivity.
  - exact Hfile.
  - unfold file_text. rewrite Hfile. cbn. now rewrite Hdec.
Qed.

Lemma save_csv_overwrites_witness :
  files (after handle_one_request
           (Sample.request "POST" "/api/save-csv" [("Content-Length", "3")]
              (Sample.bytes_of "a,b")
              {["articles.csv" := Sample.bytes_of "older, longer text"]}))
    !! "articles.csv"
  = Some (Sample.bytes_of "a,b").
Proof.
  apply (save_csv_overwrites
           (Sample.request "POST" "/api/save-csv" [("Content-Length", "3")]
              (Sample.bytes_of "a,b")
              {["articles.csv" := Sample.bytes_of "older, longer text"]})
           "3" (Sample.bytes_of "a,b") [] [97; 44; 98]);
    reflexivity.
Defined.

(** C2.  A POST to /api/save-csv whose declared body is not valid UTF-8:
    the answer is 500 and the files are what they were, articles.csv
    included, because the decoding fails before the file is opened. *)
Theorem invalid_utf8_is_rejected (st : state) (length_field : string)
    (body rest : list byte) (e : Utf8.decode_error) :
  command st = "POST" ->
  path st = "/api/save-csv" ->
  headers_buffer st = [] ->
  lookup_header "Content-Length" (headers st) = Some length_field ->
  Py.int (Py.Str length_field) = inr (Z.of_nat (length body)) ->
  rfile st = body ++ rest ->
  Utf8.decode body = inl e ->
  status (sent handle_one_request st) = Some 500 /\
  files (after handle_one_request st) = files st.
Proof.
  intros Hcmd Hpath Hbuf Hfield Hint Hin Hdec.
  assert (Hlen : content_length st = inr (Z.of_nat (length body)))
    by (unfold content_length; now rewrite Hfield).
  pose proof (handle_save_csv_rejects st body rest e Hbuf Hlen Hin Hdec)
    as Hrun.
  rewrite on_error_run in Hrun by (destruct st; exact Hbuf).
  rewrite <- (do_POST_save st Hpath), <- (dispatch_POST st Hcmd) in Hrun.
  split.
  - erewrite sent_of; [|exact Hrun|destruct st; reflexivity]. reflexivity.
  - unfold after. rewrite Hrun. destruct st. reflexivity.
Qed.

Lemma invalid_utf8_is_rejected_witness :
  status (sent handle_one_request
            (Sample.request "POST" "/api/save-csv" [("Content-Length", "2")]
               [xc3; x28] {["articles.csv" := Sample.bytes_of "kept"]}))
  = Some 500 /\
  files (after handle_one_request
           (Sample.request "POST" "/api/save-csv" [("Content-Length", "2")]
              [xc3; x28] {["articles.csv" := Sample.bytes_of "kept"]}))
  = files
      (Sample.request "POST" "/api/save-csv" [("Content-Length", "2")]
         [xc3; x28] {["articles.csv" := Sample.bytes_of "kept"]}).
Proof.
  apply (invalid_utf8_is_rejected
           (Sample.request "POST" "/api/save-csv" [("Content-Length", "2")]
              [xc3; x28] {["articles.csv" := Sample.bytes_of "kept"]})
           "2" [xc3; x28] []
           (Utf8.DecodeError xc3 0 1 Utf8.InvalidContinuation));
    reflexivity.
Defined.

(** C3, as the code has it.  A Content-Length that [int] refuses is
    answered with 500 and the text of the exception, never with 200, and
    the files stay as they were.  A request without the header is not an
    error: the length defaults to 0, nothing is read, articles.csv is left
    empty and the answer is 200. *)
Theorem content_length_outcomes (st : state) :
  command st = "POST" ->
  path st = "/api/save-csv" ->
  headers_buffer st = [] ->
  match lookup_header "Content-Length" (headers st) with
  | Some length_field =>
    forall e, Py.int (Py.Str length_field) = inl e ->
      status (sent handle_one_request st) = Some 500 /\
      message (sent handle_one_request st)
      = Some ("Internal Server Error: " +:+ Py.str e) /\
      status (sent handle_one_request st) <> Some 200 /\
      files (after handle_one_request st) = files st
  | None =>
    status (sent handle_one_request st) = Some 200 /\
    files (after handle_one_request st) !! "articles.csv" = Some []
  end.
Proof.
  intros Hcmd Hpath Hbuf.
  destruct (lookup_header "Content-Length" (headers st)) as [v|] eqn:Hfield.
  - intros e He.
    assert (Hrun := handle_save_csv_cases st Hbuf).
    unfold content_length in Hrun. rewrite Hfield, He in Hrun.
    rewrite (on_error_run e st Hbuf) in Hrun.
    rewrite <- (do_POST_save st Hpath), <- (dispatch_POST st Hcmd) in Hrun.
    assert (Hsent : sent handle_one_request st
                    = Lines (error_block st 500
                               ("Internal Server Error: " +:+ Py.str e))
                      :: error_payload st 500
                           ("Internal Server Error: " +:+ Py.str e))
      by (eapply sent_of; [exact Hrun|destruct st; reflexivity]).
    rewrite Hsent. repeat split.
    + discriminate.
    + unfold after. rewrite Hrun. destruct st. reflexivity.
  - assert (Hlen : content_length st = inr (Z.of_nat (length (@nil byte))))
      by (unfold content_length; now rewrite Hfield).
    assert (Hrun := handle_save_csv_saves st [] (rfile st) [] Hbuf Hlen
                      eq_refl eq_refl).
    rewrite <- (do_POST_save st Hpath), <- (dispatch_POST st Hcmd) in Hrun.
    split.
    + erewrite sent_of; [|exact Hrun|destruct st; reflexivity]. reflexivity.
    + unfold after. rewrite Hrun. destruct st. cbn. apply lookup_insert_eq.
Qed.

Lemma content_length_outcomes_witness :
  status (sent handle_one_request
            (Sample.request "POST" "/api/save-csv"
               [("Content-Length", "abc")] (Sample.bytes_of "a,b") ∅))
  = Some 500 /\
  message (sent handle_one_request
             (Sample.request "POST" "/api/save-csv"
                [("Content-Length", "abc")] (Sample.bytes_of "a,b") ∅))
  = Some ("Internal Server Error: " +:+
          Py.str (Py.invalid_literal "abc")).
Proof.
  pose proof (content_length_outcomes
                (Sample.request "POST" "/api/save-csv"
                   [("Content-Length", "abc")] (Sample.bytes_of "a,b") ∅)
                eq_refl eq_refl eq_refl (Py.invalid_literal "abc") eq_refl)
    as (Hstatus & Hmessage & _).
  exact (conj Hstatus Hmessage).
Defined.

(** C3 as stated fails: a POST to /api/save-csv without a Content-Length
    header is answered with 200, not 500. *)
Lemma missing_content_length_is_accepted :
  lookup_header "Content-Length"
    (headers (Sample.request "POST" "/api/save-csv" []
                (Sample.bytes_of "a,b") ∅)) = None /\
  status (sent handle_one_request
            (Sample.request "POST" "/api/save-csv" []
               (Sample.bytes_of "a,b") ∅)) = Some 200 /\
  status (sent handle_one_request
            (Sample.request "POST" "/api/save-csv" []
               (Sample.bytes_of "a,b") ∅)) <> Some 500.
Proof. repeat split. discriminate. Qed.

(** C4, as the code has it.  The body [id,title\n1,Foo\n] is 15 bytes
    long; with Content-Length: 14 the handler reads the first 14, so
    articles.csv then holds exactly [id,title\n1,Foo], without the last
    line feed.  The answer is 200 with the JSON text
    [{"status": "success", "message": "CSV saved successfully"}]. *)
Theorem scenario_saves_14_bytes (st : state) :
  command st = "POST" ->
  path st = "/api/save-csv" ->
  headers_buffer st = [] ->
  lookup_header "Content-Length" (headers st) = Some "14" ->
  rfile st = Sample.csv_body ->
  files (after handle_one_request st) !! "articles.csv"
  = Some Sample.csv_body_14 /\
  status (sent handle_one_request st) = Some 200 /\
  body (sent handle_one_request st) = Sample.bytes_of Sample.success_text.
Proof.
  intros Hcmd Hpath Hbuf Hfield Hin.
  assert (Hlen : content_length st
                 = inr (Z.of_nat (length Sample.csv_body_14)))
    by (unfold content_length; now rewrite Hfield).
  assert (Hrun := handle_save_csv_saves st Sample.csv_body_14 [x0a]
                    (Py.codes ("id,title" +:+ Sample.line_feed +:+ "1,Foo"))
                    Hbuf Hlen Hin eq_refl).
  rewrite <- (do_POST_save st Hpath), <- (dispatch_POST st Hcmd) in Hrun.
  assert (Hsent : sent handle_one_request st
                  = [Lines (success_block st); Payload success_json])
    by (eapply sent_of; [exact Hrun|destruct st; reflexivity]).
  rewrite Hsent. repeat split.
  unfold after. rewrite Hrun. destruct st. cbn. apply lookup_insert_eq.
Qed.

Lemma scenario_saves_14_bytes_witness :
  files (after handle_one_request Sample.scenario) !! "articles.csv"
  = Some Sample.csv_body_14.
Proof.
  apply (scenario_saves_14_bytes Sample.scenario); reflexivity.
Defined.

(** C4 as stated fails: after the request of the scenario articles.csv
    does not hold the whole body. *)
Lemma scenario_drops_last_byte :
  length Sample.csv_body = 15%nat /\
  files (after handle_one_request Sample.scenario) !! "articles.csv"
  <> Some Sample.csv_body.
Proof.
  split; [reflexivity|].
  intros H. vm_compute in H. discriminate H.
Qed.

(** C5.  A POST to any path but /api/save-csv runs [send_error(404)] and
    nothing else: the answer is 404, the save handler does not run (it
    would print), and the files are what they were. *)
Theorem other_post_is_not_found (st : state) :
  command st = "POST" ->
  path st <> "/api/save-csv" ->
  headers_buffer st = [] ->
  handle_one_request st = send_error 404 (Some "Not Found") st /\
  status (sent handle_one_request st) = Some 404 /\
  stdout (after handle_one_request st) = stdout st /\
  files (after handle_one_request st) = files st.
Proof.
  intros Hcmd Hpath Hbuf.
  assert (Hrun : handle_one_request st = send_error 404 (Some "Not Found") st)
    by (rewrite (dispatch_POST st Hcmd); apply do_POST_other, Hpath).
  split; [exact Hrun|].
  rewrite (send_error_run st 404 "Not Found" Hbuf) in Hrun.
  repeat split.
  - erewrite sent_of; [|exact Hrun|destruct st; reflexivity]. reflexivity.
  - unfold after. rewrite Hrun. destruct st. reflexivity.
  - unfold after. rewrite Hrun. destruct st. reflexivity.
Qed.

Lemma other_post_is_not_found_witness :
  status (sent handle_one_request
            (Sample.request "POST" "/api/save-csv/" [("Content-Length", "3")]
               (Sample.bytes_of "a,b") ∅))
  = Some 404.
Proof.
  apply (other_post_is_not_found
           (Sample.request "POST" "/api/save-csv/" [("Content-Length", "3")]
              (Sample.bytes_of "a,b") ∅));
    [reflexivity|discriminate|reflexivity].
Defined.

(** C6.  An OPTIONS request, whatever its path: status 200, the three CORS
    headers, and no body. *)
Theorem options_is_preflight (st : state) :
  command st = "OPTIONS" ->
  headers_buffer st = [] ->
  status (sent handle_one_request st) = Some 200 /\
  In ("Access-Control-Allow-Origin", "*")
     (header_fields (sent handle_one_request st)) /\
  In ("Access-Control-Allow-Methods", "POST, GET, OPTIONS")
     (header_fields (sent handle_one_request st)) /\
  In ("Access-Control-Allow-Headers", "Content-Type")
     (header_fields (sent handle_one_request st)) /\
  body (sent handle_one_request st) = [].
Proof.
  intros Hcmd Hbuf.
  assert (Hsent : sent handle_one_request st = [Lines (options_block st)]).
  { eapply sent_of;
      [rewrite (dispatch_OPTIONS st Hcmd); apply do_OPTIONS_run, Hbuf
      |destruct st; reflexivity]. }
  rewrite Hsent. unfold header_fields. cbn.
  repeat split; auto 10.
Qed.

Lemma options_is_preflight_witness :
  status (sent handle_one_request
            (Sample.request "OPTIONS" "/any/path" [] [] ∅)) = Some 200 /\
  body (sent handle_one_request
          (Sample.request "OPTIONS" "/any/path" [] [] ∅)) = [].
Proof.
  pose proof (options_is_preflight
                (Sample.request "OPTIONS" "/any/path" [] [] ∅)
                eq_refl eq_refl) as (Hstatus & _ & _ & _ & Hbody).
  exact (conj Hstatus Hbody).
Defined.



(** C9.  On a successful save the bytes stored in articles.csv are the
    first Content-Length bytes of the request body: those bytes decode, and
    encoding the decoded text gives them back. *)
Theorem saved_bytes_are_request_bytes (st : state) (size : Z) :
  command st = "POST" ->
  path st = "/api/save-csv" ->
  headers_buffer st = [] ->
  content_length st = inr size ->
  (0 <= size <= Z.of_nat (length (rfile st)))%Z ->
  status (sent handle_one_request st) = Some 200 ->
  files (after handle_one_request st) !! "articles.csv"
  = Some (firstn (Z.to_nat size) (rfile st)) /\
  exists text,
    Utf8.decode (firstn (Z.to_nat size) (rfile st)) = inr text /\
    Utf8.encode text = inr (firstn (Z.to_nat size) (rfile st)).
Proof.
  intros Hcmd Hpath Hbuf Hlen Hsize Hok.
  assert (Hrun : handle_one_request st = handle_save_csv st)
    by (rewrite (dispatch_POST st Hcmd); apply do_POST_save, Hpath).
  rewrite (sent_ext _ _ _ Hrun) in Hok. rewrite (after_ext _ _ _ Hrun).
  destruct (save_outcomes st Hbuf)
    as [(size' & text & Hlen' & Hdec & _ & Hfiles)|(e & Hsent & _)].
  - rewrite Hlen in Hlen'. injection Hlen' as <-.
    assert (Hcount : read_count size (rfile st) = Z.to_nat size)
      by (unfold read_count; destruct (Z.ltb_spec size 0); [lia|reflexivity]).
    rewrite Hcount in Hdec, Hfiles. split.
    + rewrite Hfiles. apply lookup_insert_eq.
    + exists text. split; [exact Hdec|].
      apply Utf8Facts.encode_decode, Hdec.
  - rewrite Hsent, error_reply_status in Hok. discriminate Hok.
Qed.

Lemma saved_bytes_are_request_bytes_witness :
  files (after handle_one_request Sample.scenario) !! "articles.csv"
  = Some (firstn (Z.to_nat 14) (rfile Sample.scenario)).
Proof.
  apply (saved_bytes_are_request_bytes Sample.scenario 14);
    [reflexivity|reflexivity|reflexivity|reflexivity
    |split; [lia|apply Z.leb_le; reflexivity]|reflexivity].
Defined.

(** C10.  The reply to OPTIONS and the reply to a successful save carry
    Access-Control-Allow-Origin: * twice in their header block: once from
    the handler, once from [end_headers]. *)
Theorem allow_origin_is_sent_twice (st : state) :
  headers_buffer st = [] ->
  command st = "OPTIONS" \/
  (command st = "POST" /\ path st = "/api/save-csv" /\
   status (sent handle_one_request st) = Some 200) ->
  exists block rest,
    sent handle_one_request st = Lines block :: rest /\
    blocks rest = [] /\
    occurrences allow_origin block = 2%nat.
Proof.
  intros Hbuf [Hcmd|(Hcmd & Hpath & Hok)].
  - exists (options_block st), []. repeat split.
    eapply sent_of;
      [rewrite (dispatch_OPTIONS st Hcmd); apply do_OPTIONS_run, Hbuf
      |destruct st; reflexivity].
  - assert (Hrun : handle_one_request st = handle_save_csv st)
      by (rewrite (dispatch_POST st Hcmd); apply do_POST_save, Hpath).
    rewrite (sent_ext _ _ _ Hrun) in *.
    destruct (save_outcomes st Hbuf)
      as [(size & text & _ & _ & Hsent & _)|(e & Hsent & _)].
    + exists (success_block st), [Payload success_json]. repeat split.
      exact Hsent.
    + rewrite Hsent, error_reply_status in Hok. discriminate Hok.
Qed.

Lemma allow_origin_is_sent_twice_witness :
  exists block rest,
    sent handle_one_request Sample.scenario = Lines block :: rest /\
    blocks rest = [] /\
    occurrences allow_origin block = 2%nat.
Proof.
  apply (allow_origin_is_sent_twice Sample.scenario); [reflexivity|].
  right. repeat split.
Defined.

(** C8.  Two saves to /api/save-csv in a row, the first one successful,
    the second one with a Content-Length that is the length of a body that
    decodes: after the second, articles.csv holds exactly the second body
    (so it is as long as that body, however long the first one was), its
    text is the decoding of the second body, and the files are those before
    the first save with articles.csv set to the second body: nothing of the
    first save is left. *)
Theorem second_save_replaces_first (st1 st2 : state) (length_field : string)
    (body rest : list byte) (text : Utf8.str) :
  command st1 = "POST" ->
  path st1 = "/api/save-csv" ->
  headers_buffer st1 = [] ->
  status (sent handle_one_request st1) = Some 200 ->
  command st2 = "POST" ->
  path st2 = "/api/save-csv" ->
  headers_buffer st2 = [] ->
  files st2 = files (after handle_one_request st1) ->
  lookup_header "Content-Length" (headers st2) = Some length_field ->
  Py.int (Py.Str length_field) = inr (Z.of_nat (length body)) ->
  rfile st2 = body ++ rest ->
  Utf8.decode body = inr text ->
  status (sent handle_one_request st2) = Some 200 /\
  files (after handle_one_request st2) !! "articles.csv" = Some body /\
  file_text (after handle_one_request st2) "articles.csv" = Some (inr text) /\
  files (after handle_one_request st2)
  = <["articles.csv" := body]> (files st1).
Proof.
  intros Hcmd1 Hpath1 Hbuf1 Hok1 Hcmd2 Hpath2 Hbuf2 Hfiles Hfield Hint Hin
    Hdec.
  assert (Hrun1 : handle_one_request st1 = handle_save_csv st1)
    by (rewrite (dispatch_POST st1 Hcmd1); apply do_POST_save, Hpath1).
  rewrite (sent_ext _ _ _ Hrun1) in Hok1.
  rewrite (after_ext _ _ _ Hrun1) in Hfiles.
  assert (Hfirst : exists raw, files st2 = <["articles.csv" := raw]> (files st1)).
  { destruct (save_outcomes st1 Hbuf1)
      as [(size & t & _ & _ & _ & Hf)|(e & Hsent & _)].
    - eexists. rewrite Hfiles. exact Hf.
    - rewrite Hsent, error_reply_status in Hok1. discriminate Hok1. }
  destruct Hfirst as [raw Hraw].
  assert (Hlen : content_length st2 = inr (Z.of_nat (length body)))
    by (unfold content_length; now rewrite Hfield).
  pose proof (handle_save_csv_saves st2 body rest text Hbuf2 Hlen Hin Hdec)
    as Hrun.
  rewrite <- (do_POST_save st2 Hpath2), <- (dispatch_POST st2 Hcmd2) in Hrun.
  assert (Hafter : files (after handle_one_request st2)
                   = <["articles.csv" := body]> (files st2))
    by (unfold after; rewrite Hrun; destruct st2; reflexivity).
  repeat split.
  - erewrite sent_of; [|exact Hrun|destruct st2; reflexivity]. reflexivity.
  - rewrite Hafter. apply lookup_insert_eq.
  - unfold file_text. rewrite Hafter, lookup_insert_eq. cbn. now rewrite Hdec.
  - rewrite Hafter, Hraw. apply insert_insert_eq.
Qed.

Lemma second_save_replaces_first_witness :
  files (after handle_one_request Sample.second_save) !! "articles.csv"
  = Some (Sample.bytes_of "x,y") /\
  (length (Sample.bytes_of "x,y") < length Sample.csv_body_14)%nat.
Proof.
  split.
  - apply (second_save_replaces_first Sample.scenario Sample.second_save
             "3" (Sample.bytes_of "x,y") [] [120; 44; 121]);
      [reflexivity|reflexivity|reflexivity|reflexivity|reflexivity
      |reflexivity|reflexivity|vm_compute; reflexivity|reflexivity
      |reflexivity|reflexivity|reflexivity].
  - apply Nat.ltb_lt. reflexivity.
Defined.

(* ===================================================================== *)
(** ** Beyond the claims: the save endpoint *)
(* ===================================================================== *)

Module OutcomeFacts.
Import Http Reply ReadingArchiveHandler HandlerFacts ReplyFacts Outcome.
Local Open Scope py_scope.

(** [handle_save_csv] never raises, and [save_result] is where it ends. *)
Lemma save_run st :
  headers_buffer st = [] ->
  handle_save_csv st = (inr tt, save_result st).
Proof.
  intros Hbuf. rewrite (handle_save_csv_cases st Hbuf). unfold save_result.
  destruct (content_length st) as [e|size].
  - rewrite (on_error_run e st Hbuf). destruct st. reflexivity.
  - cbv zeta. fold (taken size st). fold (left_over size st).
    unfold Py.decode.
    destruct (Utf8.decode (taken size st)) as [d|text] eqn:Hdec.
    + rewrite on_error_run by (destruct st; exact Hbuf).
      destruct st. reflexivity.
    + rewrite (written_bytes _ _ Hdec). reflexivity.
Qed.

Lemma dispatch_save st :
  command st = "POST" -> path st = "/api/save-csv" ->
  handle_one_request st = handle_save_csv st.
Proof.
  intros Hcmd Hpath. rewrite (dispatch_POST st Hcmd).
  apply do_POST_save, Hpath.
Qed.

Lemma request_save_run st :
  command st = "POST" -> path st = "/api/save-csv" ->
  headers_buffer st = [] ->
  handle_one_request st = (inr tt, save_result st).
Proof.
  intros Hcmd Hpath Hbuf. rewrite (dispatch_save st Hcmd Hpath).
  apply save_run, Hbuf.
Qed.

Lemma sent_saved size st :
  skipn (length (wfile st)) (wfile (saved size st))
  = [Lines (success_block st); Payload success_json].
Proof. destruct st. cbn. apply skipn_own_length. Qed.

Lemma sent_failed e st :
  skipn (length (wfile st)) (wfile (failed e st)) = error_reply st e.
Proof. destruct st. cbn. apply skipn_own_length. Qed.

Lemma error_reply_set_rfile e r st :
  error_reply (set_rfile r st) e = error_reply st e.
Proof. destruct st. reflexivity. Qed.

(** What the run of a save request sent, by outcome. *)
Lemma sent_save_result st :
  skipn (length (wfile st)) (wfile (save_result st)) =
    match content_length st with
    | inl e => error_reply st e
    | inr size =>
      match Utf8.decode (taken size st) with
      | inl d => error_reply st (Py.UnicodeDecodeError d)
      | inr _ => [Lines (success_block st); Payload success_json]
      end
    end.
Proof.
  unfold save_result. destruct (content_length st) as [e|size].
  - apply sent_failed.
  - destruct (Utf8.decode (taken size st)) as [d|text].
    + rewrite <- (error_reply_set_rfile _ (left_over size st)).
      rewrite <- sent_failed. destruct st. reflexivity.
    + apply sent_saved.
Qed.

End OutcomeFacts.

Import Outcome OutcomeFacts.

(** X1.  A POST to /api/save-csv never raises out of the handler and is all
    or nothing: either the answer is 200 and articles.csv holds the bytes
    the Content-Length declares, or the answer is 500 and no file has
    changed. *)
Theorem save_is_all_or_nothing (st : state) :
  command st = "POST" ->
  path st = "/api/save-csv" ->
  headers_buffer st = [] ->
  fst (handle_one_request st) = inr tt /\
  ((exists size,
      content_length st = inr size /\
      status (sent handle_one_request st) = Some 200 /\
      files (after handle_one_request st)
      = <["articles.csv" := taken size st]> (files st)) \/
   (status (sent handle_one_request st) = Some 500 /\
    files (after handle_one_request st) = files st)).
Proof.
  intros Hcmd Hpath Hbuf.
  pose proof (request_save_run st Hcmd Hpath Hbuf) as Hrun.
  split; [now rewrite Hrun|].
  unfold sent, after. rewrite Hrun. cbn [snd].
  rewrite sent_save_result. unfold save_result.
  destruct (content_length st) as [e|size].
  - right. split; [reflexivity|destruct st; reflexivity].
  - destruct (Utf8.decode (taken size st)) as [d|text].
    + right. split; [reflexivity|destruct st; reflexivity].
    + left. exists size. repeat split.
Qed.

Lemma save_is_all_or_nothing_witness :
  fst (handle_one_request Sample.scenario) = inr tt.
Proof.
  apply (save_is_all_or_nothing Sample.scenario); reflexivity.
Defined.

Module RequestFacts.
Import Http Reply ReadingArchiveHandler HandlerFacts ReplyFacts.
Import Outcome OutcomeFacts.
Local Open Scope py_scope.

Lemma send_error_untouched st status message :
  headers_buffer st = [] ->
  exists st', send_error status (Some message) st = (inr tt, st') /\
              untouched st st' /\ close_connection st' = true.
Proof.
  intros Hbuf. rewrite (send_error_run st status message Hbuf).
  eexists. split; [reflexivity|]. destruct st. cbn in Hbuf. subst.
  repeat split.
Qed.

Lemma send_head_untouched st :
  headers_buffer st = [] ->
  exists st' content,
    Http.send_head end_headers st = (inr content, st') /\ untouched st st'.
Proof.
  intros Hbuf. unfold Http.send_head.
  do 4 (erewrite bind_ok by reflexivity).
  destruct (send_head_plan st (files st) (path st) (headers st))
    as [status message|status out content].
  - destruct (send_error_untouched st status message Hbuf)
      as (st' & Hrun & Hst' & _).
    unfold send_error in Hrun. rewrite (bind_ok _ _ _ _ _ Hrun).
    eexists _, _. split; [reflexivity|exact Hst'].
  - rewrite (bind_ok _ _ _ _ _ (send_response_run status None st)).
    destruct (send_headers_run out
                (set_headers_buffer
                   (headers_buffer st ++
                    [StatusLine protocol_version status
                       (short_message (responses st) status);
                     HeaderLine "Server" (version_string st);
                     HeaderLine "Date" (date_time_string st)]) st))
      as [cc Hout].
    rewrite (bind_ok _ _ _ _ _ Hout).
    erewrite bind_ok by apply end_headers_run.
    eexists _, _. split; [reflexivity|].
    destruct st. repeat split.
Qed.

Lemma do_GET_untouched st :
  headers_buffer st = [] ->
  exists st', do_GET st = (inr tt, st') /\ untouched st st'.
Proof.
  intros Hbuf.
  destruct (send_head_untouched st Hbuf) as (st' & content & Hrun & Hst').
  unfold do_GET, Http.do_GET. rewrite (bind_ok _ _ _ _ _ Hrun).
  destruct content as [c|].
  - eexists. split; [reflexivity|].
    destruct Hst' as (H1 & H2 & H3 & H4). destruct st'. cbn in *.
    repeat split; assumption.
  - eexists. split; [reflexivity|exact Hst'].
Qed.

Lemma do_HEAD_untouched st :
  headers_buffer st = [] ->
  exists st', do_HEAD st = (inr tt, st') /\ untouched st st'.
Proof.
  intros Hbuf.
  destruct (send_head_untouched st Hbuf) as (st' & content & Hrun & Hst').
  unfold do_HEAD, Http.do_HEAD. rewrite (bind_ok _ _ _ _ _ Hrun).
  eexists. split; [reflexivity|exact Hst'].
Qed.

Lemma do_OPTIONS_untouched st :
  headers_buffer st = [] ->
  exists st', do_OPTIONS st = (inr tt, st') /\ untouched st st'.
Proof.
  intros Hbuf. rewrite (do_OPTIONS_run st Hbuf).
  eexists. split; [reflexivity|]. destruct st. cbn in Hbuf. subst.
  repeat split.
Qed.

Lemma is_save_true st :
  is_save st = true <-> command st = "POST" /\ path st = "/api/save-csv".
Proof.
  unfold is_save. rewrite andb_true_iff, !String.eqb_eq. reflexivity.
Qed.

(** Every request but a save leaves files, stdout and input alone. *)
Lemma other_request_untouched st :
  headers_buffer st = [] -> is_save st = false ->
  exists st', handle_one_request st = (inr tt, st') /\ untouched st st'.
Proof.
  intros Hbuf Hsave.
  assert (Hrun : handle_one_request st =
    (if String.eqb (command st) "GET" then do_GET
     else if String.eqb (command st) "HEAD" then do_HEAD
     else if String.eqb (command st) "POST" then do_POST
     else if String.eqb (command st) "OPTIONS" then do_OPTIONS
     else send_error 501
            (Some ("Unsupported method (" +:+ Py.repr (command st) +:+ ")")))
      st) by reflexivity.
  rewrite Hrun. clear Hrun.
  destruct (String.eqb (command st) "GET");
    [apply do_GET_untouched, Hbuf|].
  destruct (String.eqb (command st) "HEAD");
    [apply do_HEAD_untouched, Hbuf|].
  destruct (String.eqb_spec (command st) "POST") as [Hcmd|_].
  { destruct (String.eqb_spec (path st) "/api/save-csv") as [Hpath|Hpath].
    - pose proof (proj2 (is_save_true st) (conj Hcmd Hpath)). congruence.
    - rewrite (do_POST_other st Hpath).
      destruct (send_error_untouched st 404 "Not Found" Hbuf)
        as (st' & Hrun & Hst' & _).
      eauto. }
  destruct (String.eqb (command st) "OPTIONS");
    [apply do_OPTIONS_untouched, Hbuf|].
  destruct (send_error_untouched st 501
              ("Unsupported method (" +:+ Py.repr (command st) +:+ ")") Hbuf)
    as (st' & Hrun & Hst' & _).
  eauto.
Qed.

Lemma save_result_buffer st :
  headers_buffer st = [] -> headers_buffer (save_result st) = [].
Proof.
  intros Hbuf. unfold save_result.
  destruct (content_length st) as [e|size];
    [|destruct (Utf8.decode (taken size st))];
    destruct st; exact Hbuf.
Qed.

(** Where any request takes a state that starts with an empty buffer. *)
Lemma request_run st :
  headers_buffer st = [] ->
  exists st',
    handle_one_request st = (inr tt, st') /\
    headers_buffer st' = [] /\
    if is_save st then st' = save_result st else untouched st st'.
Proof.
  intros Hbuf. destruct (is_save st) eqn:Hsave.
  - apply is_save_true in Hsave as [Hcmd Hpath].
    exists (save_result st). split; [apply request_save_run; assumption|].
    split; [apply save_result_buffer, Hbuf|reflexivity].
  - destruct (other_request_untouched st Hbuf Hsave) as (st' & Hrun & Hst').
    exists st'. split; [exact Hrun|]. split; [apply Hst'|exact Hst'].
Qed.

End RequestFacts.

Import RequestFacts.



(** X3.  No request changes a file other than articles.csv, and a request
    that is not a POST to /api/save-csv changes no file at all and prints
    nothing. *)
Theorem only_the_save_endpoint_writes (st : state) :
  headers_buffer st = [] ->
  (forall name, name <> "articles.csv" ->
     files (after handle_one_request st) !! name = files st !! name) /\
  (command st <> "POST" \/ path st <> "/api/save-csv" ->
   files (after handle_one_request st) = files st /\
   stdout (after handle_one_request st) = stdout st).
Proof.
  intros Hbuf. destruct (request_run st Hbuf) as (st' & Hrun & _ & Hst').
  unfold after. rewrite Hrun. cbn [snd].
  destruct (is_save st) eqn:Hsave.
  - subst st'. split.
    + intros name Hname. unfold save_result.
      destruct (content_length st) as [e|size];
        [|destruct (Utf8.decode (taken size st))];
        try (destruct st; reflexivity).
      transitivity (<["articles.csv" := taken size st]> (files st) !! name);
        [destruct st; reflexivity|].
      apply lookup_insert_ne. congruence.
    + apply is_save_true in Hsave as [Hcmd Hpath]. intros [H|H]; contradiction.
  - destruct Hst' as (_ & Hfiles & Hout & _). split.
    + intros name _. now rewrite Hfiles.
    + intros _. split; assumption.
Qed.

Lemma only_the_save_endpoint_writes_witness :
  files (after handle_one_request
           (Sample.request "OPTIONS" "/api/save-csv" [] [] ∅))
  = files (Sample.request "OPTIONS" "/api/save-csv" [] [] ∅).
Proof.
  apply (only_the_save_endpoint_writes
           (Sample.request "OPTIONS" "/api/save-csv" [] [] ∅) eq_refl).
  left. discriminate.
Defined.





(** X6.  A reply to a POST either is a 200, and then the connection flag
    is what it was, or it is an error reply, and then it carries
    Connection: close and the handler has marked the connection to be
    closed. *)
Theorem errors_close_the_connection (st : state) :
  command st = "POST" ->
  headers_buffer st = [] ->
  (status (sent handle_one_request st) = Some 200 /\
   close_connection (after handle_one_request st) = close_connection st) \/
  (status (sent handle_one_request st) <> Some 200 /\
   In ("Connection", "close") (header_fields (sent handle_one_request st)) /\
   close_connection (after handle_one_request st) = true).
Proof.
  intros Hcmd Hbuf.
  assert (Herr : forall e r,
            In ("Connection", "close") (header_fields (error_reply r e)))
    by (intros e r; right; right; left; reflexivity).
  destruct (String.eqb_spec (path st) "/api/save-csv") as [Hpath|Hpath].
  - unfold sent, after. rewrite (request_save_run st Hcmd Hpath Hbuf).
    cbn [snd]. rewrite sent_save_result. unfold save_result.
    destruct (content_length st) as [e|size];
      [|destruct (Utf8.decode (taken size st)) as [d|text]].
    + right. split; [discriminate|].
      split; [apply Herr|destruct st; reflexivity].
    + right. split; [discriminate|].
      split; [apply Herr|destruct st; reflexivity].
    + left. split; [reflexivity|destruct st; reflexivity].
  - right.
    assert (Hrun : handle_one_request st
                   = send_error 404 (Some "Not Found") st)
      by (rewrite (dispatch_POST st Hcmd); apply do_POST_other, Hpath).
    rewrite (send_error_run st 404 "Not Found" Hbuf) in Hrun.
    assert (Hsent : sent handle_one_request st
                    = Lines (error_block st 404 "Not Found")
                      :: error_payload st 404 "Not Found")
      by (eapply sent_of; [exact Hrun|destruct st; reflexivity]).
    rewrite Hsent. unfold after. rewrite Hrun.
    split; [discriminate|].
    split; [right; right; left; reflexivity|destruct st; reflexivity].
Qed.

Lemma errors_close_the_connection_witness :
  (status (sent handle_one_request Sample.scenario) = Some 200 /\
   close_connection (after handle_one_request Sample.scenario)
   = close_connection Sample.scenario) \/
  (status (sent handle_one_request Sample.scenario) <> Some 200 /\
   In ("Connection", "close")
      (header_fields (sent handle_one_request Sample.scenario)) /\
   close_connection (after handle_one_request Sample.scenario) = true).
Proof.
  apply (errors_close_the_connection Sample.scenario); reflexivity.
Defined.

(** X7.  A POST to /api/save-csv prints exactly one line, and the line
    agrees with the reply: the success line with a 200, and otherwise the
    text of the exception, the same text the 500 reply carries after
    "Internal Server Error: ". *)
Theorem log_line_matches_reply (st : state) :
  command st = "POST" ->
  path st = "/api/save-csv" ->
  headers_buffer st = [] ->
  exists line,
    stdout (after handle_one_request st) = stdout st ++ [line] /\
    ((status (sent handle_one_request st) = Some 200 /\
      line = "CSV file saved successfully") \/
     (exists text,
        status (sent handle_one_request st) = Some 500 /\
        line = "Error saving CSV: " +:+ text /\
        message (sent handle_one_request st)
        = Some ("Internal Server Error: " +:+ text))).
Proof.
  intros Hcmd Hpath Hbuf.
  unfold sent, after. rewrite (request_save_run st Hcmd Hpath Hbuf).
  cbn [snd]. rewrite sent_save_result. unfold save_result.
  destruct (content_length st) as [e|size];
    [|destruct (Utf8.decode (taken size st)) as [d|text]].
  - exists ("Error saving CSV: " +:+ Py.str e).
    split; [destruct st; reflexivity|]. right. exists (Py.str e).
    repeat split.
  - exists ("Error saving CSV: " +:+ Py.str (Py.UnicodeDecodeError d)).
    split; [destruct st; reflexivity|]. right.
    exists (Py.str (Py.UnicodeDecodeError d)). repeat split.
  - exists "CSV file saved successfully".
    split; [destruct st; reflexivity|]. left. repeat split.
Qed.

Lemma log_line_matches_reply_witness :
  exists line,
    stdout (after handle_one_request Sample.scenario)
    = stdout Sample.scenario ++ [line] /\
    ((status (sent handle_one_request Sample.scenario) = Some 200 /\
      line = "CSV file saved successfully") \/
     (exists text,
        status (sent handle_one_request Sample.scenario) = Some 500 /\
        line = "Error saving CSV: " +:+ text /\
        message (sent handle_one_request Sample.scenario)
        = Some ("Internal Server Error: " +:+ text))).
Proof.
  apply (log_line_matches_reply Sample.scenario); reflexivity.
Defined.

(* ===================================================================== *)
(** ** Beyond the claims: what the builtins accept *)
(* ===================================================================== *)

Module BuiltinFacts.
Import Http Reply ReadingArchiveHandler.

(** *** ASCII text decodes to itself *)

Lemma decode_from_ascii (s : list byte) :
  Forall (fun b => Byte.to_N b < 0x80) s ->
  forall pos, Utf8.decode_from pos s = inr (map Byte.to_N s).
Proof.
  induction 1 as [|b s Hb _ IH]; intros pos; [reflexivity|].
  cbn [Utf8.decode_from map]. cbv zeta.
  apply N.ltb_lt in Hb. rewrite Hb, IH. reflexivity.
Qed.

(** *** [int(str(n))] *)

Import Decimal.

Lemma scan_digit_step (a : ascii) v k l :
  Py.is_digit (Py.code a) = true ->
  Py.scan_digits v k false (Py.code a :: l)
  = Py.scan_digits (10 * v + Z.of_N (Py.code a - 48)) (k + 1) false l.
Proof.
  intros Ha. cbn [Py.scan_digits]. rewrite Ha.
  destruct (N.eqb_spec (Py.code a) 95) as [E|_]; [|reflexivity].
  rewrite E in Ha. discriminate Ha.
Qed.

Ltac digit_step :=
  cbn [NilEmpty.string_of_uint Py.codes Pos.of_uint_acc Pos.of_uint
       nb_digits];
  rewrite scan_digit_step by reflexivity;
  match goal with
  | |- context [Z.of_N (Py.code ?a - 48)] =>
    let v := eval vm_compute in (Z.of_N (Py.code a - 48)) in
    change (Z.of_N (Py.code a - 48)) with v
  end;
  match goal with
  | |- _ = Some (_, ?k + N.of_nat (S ?n), _, _) =>
    replace (k + N.of_nat (S n)) with (k + 1 + N.of_nat n) by lia
  end.

Lemma scan_digits_acc (d : uint) :
  forall v acc k,
    v = Z.pos acc ->
    Py.scan_digits v k false (Py.codes (NilEmpty.string_of_uint d))
    = Some (Z.pos (Pos.of_uint_acc d acc), k + N.of_nat (nb_digits d),
            false, []).
Proof.
  induction d; intros v acc k ->;
    [cbn; rewrite N.add_0_r; reflexivity|..];
    digit_step; apply IHd; lia.
Qed.

Lemma scan_digits_zero (d : uint) :
  forall k,
    Py.scan_digits 0 k false (Py.codes (NilEmpty.string_of_uint d))
    = Some (Z.of_N (Pos.of_uint d), k + N.of_nat (nb_digits d), false, []).
Proof.
  induction d; intros k;
    [cbn; rewrite N.add_0_r; reflexivity|..];
    digit_step; [apply IHd|..]; apply scan_digits_acc; lia.
Qed.

Lemma string_of_uint_length (d : uint) :
  String.length (NilEmpty.string_of_uint d) = nb_digits d.
Proof. induction d; cbn; congruence. Qed.

(** Text that is a run of digits starting with a digit: [int] finds no
    space, sign or underscore to skip, and the run is the number. *)
Lemma int_of_digits s c tl value digits :
  Py.codes s = c :: tl ->
  Py.is_digit c = true ->
  Py.scan_digits 0 0 false (c :: tl) = Some (value, digits, false, []) ->
  0 < digits <= Py.int_max_str_digits ->
  Py.int_of_str s = inr value.
Proof.
  intros Hcodes Hc Hscan Hdigits. unfold Py.int_of_str. rewrite Hcodes.
  assert (Hcases : c = 48 \/ c = 49 \/ c = 50 \/ c = 51 \/ c = 52 \/ c = 53
                   \/ c = 54 \/ c = 55 \/ c = 56 \/ c = 57).
  { unfold Py.is_digit in Hc.
    apply andb_true_iff in Hc as [H1 H2].
    apply N.leb_le in H1. apply N.leb_le in H2. lia. }
  assert (Hlimit : (Py.int_max_str_digits <? digits) = false)
    by (apply N.ltb_ge; lia).
  assert (Hsome : (digits =? 0) = false) by (apply N.eqb_neq; lia).
  repeat (destruct Hcases as [->|Hcases]); try subst c;
    cbn [Py.skip_spaces];
    match goal with
    | |- context [Py.is_space ?c] => change (Py.is_space c) with false
    end;
    cbv beta iota; rewrite Hscan, Hlimit, Hsome; reflexivity.
Qed.

Lemma numeral_head (d : uint) :
  d <> Nil ->
  exists c tl,
    Py.codes (NilEmpty.string_of_uint d) = c :: tl /\ Py.is_digit c = true.
Proof.
  intros Hd. destruct d; [contradiction|..]; eexists _, _;
    (split; [reflexivity|reflexivity]).
Qed.

Lemma int_of_numeral (d : uint) :
  d <> Nil ->
  (nb_digits d <= 4300)%nat ->
  Py.int_of_str (NilEmpty.string_of_uint d) = inr (Z.of_N (Pos.of_uint d)).
Proof.
  intros Hd Hlen.
  destruct (numeral_head d Hd) as (c & tl & Hcodes & Hc).
  apply (int_of_digits _ c tl _ (0 + N.of_nat (nb_digits d)) Hcodes Hc).
  - rewrite <- Hcodes. apply scan_digits_zero.
  - unfold Py.int_max_str_digits. split; [|lia].
    destruct d; [contradiction|..]; cbn [nb_digits]; lia.
Qed.

(** [int(str(n)) = n], as long as the numeral is within the digit limit. *)
Lemma int_of_str_N (n : N) :
  (String.length (Py.str_N n) <= 4300)%nat ->
  Py.int (Py.Str (Py.str_N n)) = inr (Z.of_N n).
Proof.
  intros Hlen. unfold Py.str_N in *. rewrite string_of_uint_length in Hlen.
  cbn [Py.int]. rewrite int_of_numeral.
  - change (Pos.of_uint (N.to_uint n)) with (N.of_uint (N.to_uint n)).
    now rewrite DecimalN.Unsigned.of_to.
  - destruct n; [discriminate|apply DecimalPos.Unsigned.to_uint_nonnil].
  - exact Hlen.
Qed.

End BuiltinFacts.

Import BuiltinFacts.

(** X8.  A body made of ASCII bytes only is always accepted: with a
    Content-Length that is its length the answer is 200, articles.csv holds
    the body byte for byte, and the text of the file is the body, one
    character per byte. *)
Theorem ascii_body_is_always_saved (st : state) (length_field : string)
    (body rest : list byte) :
  command st = "POST" ->
  path st = "/api/save-csv" ->
  headers_buffer st = [] ->
  lookup_header "Content-Length" (headers st) = Some length_field ->
  Py.int (Py.Str length_field) = inr (Z.of_nat (length body)) ->
  rfile st = body ++ rest ->
  Forall (fun b => Byte.to_N b < 128) body ->
  status (sent handle_one_request st) = Some 200 /\
  files (after handle_one_request st) !! "articles.csv" = Some body /\
  file_text (after handle_one_request st) "articles.csv"
  = Some (inr (map Byte.to_N body)).
Proof.
  intros Hcmd Hpath Hbuf Hfield Hint Hin Hascii.
  assert (Hdec : Utf8.decode body = inr (map Byte.to_N body))
    by (apply decode_from_ascii, Hascii).
  assert (Hlen : content_length st = inr (Z.of_nat (length body)))
    by (unfold content_length; now rewrite Hfield).
  pose proof (handle_save_csv_saves st body rest _ Hbuf Hlen Hin Hdec)
    as Hrun.
  rewrite <- (dispatch_save st Hcmd Hpath) in Hrun.
  assert (Hfile : files (after handle_one_request st) !! "articles.csv"
                  = Some body)
    by (unfold after; rewrite Hrun; destruct st; apply lookup_insert_eq).
  split; [|split; [exact Hfile|]].
  - erewrite sent_of; [|exact Hrun|destruct st; reflexivity]. reflexivity.
  - unfold file_text. rewrite Hfile. cbn. now rewrite Hdec.
Qed.

Lemma ascii_body_is_always_saved_witness :
  files (after handle_one_request
           (Sample.request "POST" "/api/save-csv" [("Content-Length", "3")]
              (Sample.bytes_of "a,b") ∅)) !! "articles.csv"
  = Some (Sample.bytes_of "a,b").
Proof.
  apply (ascii_body_is_always_saved
           (Sample.request "POST" "/api/save-csv" [("Content-Length", "3")]
              (Sample.bytes_of "a,b") ∅)
           "3" (Sample.bytes_of "a,b") []);
    [reflexivity|reflexivity|reflexivity|reflexivity|reflexivity|reflexivity|].
  repeat constructor.
Defined.

(** X9.  [int] reads back what [str] prints: a Content-Length written as
    the decimal numeral of the length of the body (within the 4300 digits
    [int] allows) is accepted, and a body that decodes is then saved whole,
    with answer 200. *)
Theorem decimal_length_is_accepted (st : state) (body rest : list byte)
    (text : Utf8.str) :
  command st = "POST" ->
  path st = "/api/save-csv" ->
  headers_buffer st = [] ->
  lookup_header "Content-Length" (headers st)
  = Some (Py.str_N (N.of_nat (length body))) ->
  (String.length (Py.str_N (N.of_nat (length body))) <= 4300)%nat ->
  rfile st = body ++ rest ->
  Utf8.decode body = inr text ->
  content_length st = inr (Z.of_nat (length body)) /\
  status (sent handle_one_request st) = Some 200 /\
  files (after handle_one_request st) !! "articles.csv" = Some body.
Proof.
  intros Hcmd Hpath Hbuf Hfield Hdigits Hin Hdec.
  assert (Hlen : content_length st = inr (Z.of_nat (length body))).
  { unfold content_length. rewrite Hfield, (int_of_str_N _ Hdigits).
    now rewrite nat_N_Z. }
  pose proof (handle_save_csv_saves st body rest _ Hbuf Hlen Hin Hdec)
    as Hrun.
  rewrite <- (dispatch_save st Hcmd Hpath) in Hrun.
  split; [exact Hlen|]. split.
  - erewrite sent_of; [|exact Hrun|destruct st; reflexivity]. reflexivity.
  - unfold after. rewrite Hrun. destruct st. apply lookup_insert_eq.
Qed.

Lemma decimal_length_is_accepted_witness :
  files (after handle_one_request
           (Sample.request "POST" "/api/save-csv" [("Content-Length", "14")]
              Sample.csv_body_14 ∅)) !! "articles.csv"
  = Some Sample.csv_body_14.
Proof.
  apply (decimal_length_is_accepted
           (Sample.request "POST" "/api/save-csv" [("Content-Length", "14")]
              Sample.csv_body_14 ∅)
           Sample.csv_body_14 []
           (Py.codes ("id,title" +:+ Sample.line_feed +:+ "1,Foo")));
    [reflexivity|reflexivity|reflexivity|reflexivity
    |apply Nat.leb_le; reflexivity|reflexivity|reflexivity].
Defined.

(* ===================================================================== *)
(** ** Beyond the claims: the text of the error reply *)
(* ===================================================================== *)

Module TextFacts.
Import Http Reply ReadingArchiveHandler Outcome.

Lemma codes_app s1 s2 : Py.codes (s1 +:+ s2) = Py.codes s1 ++ Py.codes s2.
Proof.
  induction s1 as [|a s1 IH]; [reflexivity|].
  simpl. now rewrite IH.
Qed.

Lemma no_control_app s1 s2 :
  no_control (s1 +:+ s2) = no_control s1 && no_control s2.
Proof. unfold no_control. rewrite codes_app. apply forallb_app. Qed.

Lemma no_control_cons a s :
  no_control (String a s) = (32 <=? Py.code a) && no_control s.
Proof. reflexivity. Qed.

Lemma code_of_N n : n < 256 -> Py.code (ascii_of_N n) = n.
Proof. apply N_ascii_embedding. Qed.

Lemma hex_digit_code d : d < 16 -> (32 <=? Py.code (Py.hex_digit d)) = true.
Proof.
  intros Hd. unfold Py.hex_digit. apply N.leb_le.
  destruct (N.ltb_spec d 10); rewrite code_of_N; lia.
Qed.

Lemma no_control_hex width n : no_control (Py.hex_fixed width n) = true.
Proof.
  revert n. induction width as [|w IH]; intros n; [reflexivity|].
  cbn [Py.hex_fixed]. rewrite no_control_app, IH, no_control_cons.
  rewrite hex_digit_code by (apply N.mod_lt; lia). reflexivity.
Qed.

Lemma no_control_numeral (d : Decimal.uint) :
  no_control (NilEmpty.string_of_uint d) = true.
Proof.
  induction d; [reflexivity|..]; cbn [NilEmpty.string_of_uint];
    rewrite no_control_cons, IHd; reflexivity.
Qed.

Lemma no_control_str_N n : no_control (Py.str_N n) = true.
Proof. apply no_control_numeral. Qed.

(** [repr] escapes every control character. *)
Lemma no_control_repr_char q a :
  (32 <=? Py.code q) = true -> no_control (Py.repr_char q a) = true.
Proof.
  intros Hq. unfold Py.repr_char.
  destruct ((Py.code a =? Py.code q) || (Py.code a =? 92)) eqn:Hesc.
  - rewrite !no_control_cons. apply orb_true_iff in Hesc as [E|E];
      apply N.eqb_eq in E; rewrite E; [rewrite Hq|]; reflexivity.
  - destruct (Py.code a =? 9); [reflexivity|].
    destruct (Py.code a =? 10); [reflexivity|].
    destruct (Py.code a =? 13); [reflexivity|].
    destruct (Py.is_printable (Py.code a)) eqn:Hp.
    + rewrite no_control_cons. unfold Py.is_printable in Hp.
      apply orb_true_iff in Hp as [Hp|Hp];
        apply andb_true_iff in Hp as [Hp _].
      * rewrite Hp. reflexivity.
      * apply N.leb_le in Hp.
        replace (32 <=? Py.code a) with true
          by (symmetry; apply N.leb_le; lia).
        reflexivity.
    + rewrite no_control_app, no_control_hex. reflexivity.
Qed.

Lemma no_control_repr_body q s :
  (32 <=? Py.code q) = true -> no_control (Py.repr_body q s) = true.
Proof.
  intros Hq. induction s as [|a s IH]; [reflexivity|].
  cbn [Py.repr_body]. now rewrite no_control_app, no_control_repr_char, IH.
Qed.

Lemma no_control_repr s : no_control (Py.repr s) = true.
Proof.
  unfold Py.repr.
  assert (Hq : (32 <=? Py.code (Py.repr_quote s)) = true)
    by (unfold Py.repr_quote; destruct (_ && _); reflexivity).
  rewrite no_control_app, !no_control_cons, Hq, no_control_repr_body by exact Hq.
  reflexivity.
Qed.

Lemma no_control_invalid_literal s :
  no_control (Py.str (Py.invalid_literal s)) = true.
Proof.
  cbn [Py.str Py.invalid_literal].
  now rewrite no_control_app, no_control_repr.
Qed.

Lemma no_control_exceeds_limit k :
  no_control (Py.str (Py.exceeds_limit k)) = true.
Proof.
  cbn [Py.str Py.exceeds_limit].
  now rewrite !no_control_app, !no_control_str_N.
Qed.

Lemma no_control_decode_error d :
  no_control (Py.str (Py.UnicodeDecodeError d)) = true.
Proof.
  destruct d as [b start stop why]. cbn [Py.str].
  assert (Hwhy : no_control (Py.reason_text why) = true)
    by (destruct why; reflexivity).
  destruct (stop =? start + 1);
    now rewrite !no_control_app, ?no_control_hex, !no_control_str_N, Hwhy.
Qed.


(** Whatever [int] raises on text, its message has no control character. *)
Lemma no_control_int_error s e :
  Py.int_of_str s = inl e -> no_control (Py.str e) = true.
Proof.
  unfold Py.int_of_str. intros H.
  assert (Hgoal : e = Py.invalid_literal s \/
                  exists k, e = Py.exceeds_limit k).
  { repeat match type of H with
           | context [match ?x with _ => _ end] => destruct x
           end;
      try discriminate H; injection H as <-; eauto. }
  destruct Hgoal as [->|[k ->]];
    [apply no_control_invalid_literal|apply no_control_exceeds_limit].
Qed.

Lemma no_control_has_char c s :
  c < 32 -> no_control s = true -> Py.has_char c s = false.
Proof.
  intros Hc Hs. unfold Py.has_char, no_control in *.
  apply not_true_is_false. intros Hex.
  apply existsb_exists in Hex as (x & Hin & Hx). apply N.eqb_eq in Hx.
  subst x. rewrite forallb_forall in Hs. apply Hs, N.leb_le in Hin. lia.
Qed.

End TextFacts.

Import TextFacts.

(** X10.  The reason phrase of a 500 reply to a POST to /api/save-csv has
    no carriage return and no line feed, whatever the Content-Length header
    and the body were: the text of the exception that goes into the status
    line cannot break the line. *)
Theorem error_text_has_no_line_break (st : state) :
  command st = "POST" ->
  path st = "/api/save-csv" ->
  headers_buffer st = [] ->
  status (sent handle_one_request st) = Some 500 ->
  exists text,
    message (sent handle_one_request st) = Some text /\
    Py.has_char 13 text = false /\
    Py.has_char 10 text = false.
Proof.
  intros Hcmd Hpath Hbuf.
  assert (Hsafe : forall e, no_control (Py.str e) = true ->
            exists text,
              message (error_reply st e) = Some text /\
              Py.has_char 13 text = false /\ Py.has_char 10 text = false).
  { intros e He. exists ("Internal Server Error: " +:+ Py.str e).
    split; [reflexivity|].
    assert (Hm : no_control ("Internal Server Error: " +:+ Py.str e) = true)
      by (rewrite no_control_app, He; reflexivity).
    split; apply no_control_has_char; (lia || exact Hm). }
  unfold sent, after. rewrite (request_save_run st Hcmd Hpath Hbuf).
  cbn [snd]. rewrite sent_save_result. unfold content_length.
  destruct (lookup_header "Content-Length" (headers st)) as [v|];
    cbn [Py.int].
  - destruct (Py.int_of_str v) as [e|size] eqn:Hint.
    + intros _. apply Hsafe. apply (no_control_int_error v e Hint).
    + destruct (Utf8.decode (taken size st)) as [d|text].
      * intros _. apply Hsafe, no_control_decode_error.
      * discriminate.
  - destruct (Utf8.decode (taken 0 st)) as [d|text].
    + intros _. apply Hsafe, no_control_decode_error.
    + discriminate.
Qed.

Lemma error_text_has_no_line_break_witness :
  exists text,
    message (sent handle_one_request
               (Sample.request "POST" "/api/save-csv"
                  [("Content-Length", String "013" (String "010" "x"))]
                  [] ∅)) = Some text /\
    Py.has_char 13 text = false /\
    Py.has_char 10 text = false.
Proof.
  apply (error_text_has_no_line_break
           (Sample.request "POST" "/api/save-csv"
              [("Content-Length", String "013" (String "010" "x"))]
              [] ∅));
    reflexivity.
Defined.

(* ===================================================================== *)
(** ** Beyond the claims: the codec, the other way round *)
(* ===================================================================== *)

Module CodecFacts.
Import Utf8 Utf8Facts Outcome.

Lemma to_N_byte_of_N n : n < 256 -> Byte.to_N (byte_of_N n) = n.
Proof.
  intros Hn. unfold byte_of_N.
  destruct (Byte.of_N n) as [b|] eqn:Hb.
  - apply Byte.to_of_N, Hb.
  - apply Byte.of_N_None_iff in Hb. lia.
Qed.

Lemma is_continuation_low x : x < 64 -> is_continuation (0x80 + x) = true.
Proof.
  intros Hx. unfold is_continuation.
  apply andb_true_iff. split; [apply N.leb_le|apply N.ltb_lt]; lia.
Qed.

(** The six low bits and what is above them. *)
Lemma low_high c : c = 64 * (c / 64) + c mod 64 /\ c mod 64 < 64.
Proof. split; [apply N.Div0.div_mod|apply N.mod_lt; lia]. Qed.

Ltac decide_ltb :=
  repeat match goal with
         | |- context [?a <? ?b] =>
           destruct (N.ltb_spec a b); try (exfalso; lia)
         end.

Lemma decode_char_1 c rest pos :
  c < 0x80 ->
  decode_from pos (map byte_of_N [c] ++ rest)
  = more c (decode_from (pos + 1) rest).
Proof.
  intros Hc. cbn [map app decode_from]. cbv zeta.
  rewrite to_N_byte_of_N by lia.
  apply N.ltb_lt in Hc. now rewrite Hc.
Qed.

Lemma decode_char_2 c rest pos :
  0x80 <= c < 0x800 ->
  decode_from pos
    (map byte_of_N [N.lor 0xC0 (N.shiftr c 6); N.lor 0x80 (N.land c 0x3F)]
     ++ rest)
  = more c (decode_from (pos + 2) rest).
Proof.
  intros Hc. rewrite shiftr_6, low6.
  destruct (low_high c) as [Hsplit Hr].
  set (q := c / 64) in *. set (r := c mod 64) in *. clearbody q r.
  rewrite lor_0xC0, lor_0x80 by lia.
  cbn [map app decode_from]. cbv zeta.
  rewrite !to_N_byte_of_N by lia.
  rewrite is_continuation_low by exact Hr. cbn [negb].
  decide_ltb. f_equal. unfold join2. rewrite !N.shiftl_mul_pow2.
  change (2 ^ 6) with 64. lia.
Qed.


Ltac decide_eqb :=
  repeat match goal with
         | |- context [?a =? ?b] =>
           destruct (N.eqb_spec a b); try (exfalso; lia)
         end.

Lemma decode_char_3 c rest pos :
  0x800 <= c < 0x10000 ->
  ~ (0xD800 <= c <= 0xDFFF) ->
  decode_from pos
    (map byte_of_N [N.lor 0xE0 (N.shiftr c 12);
                    N.lor 0x80 (N.land (N.shiftr c 6) 0x3F);
                    N.lor 0x80 (N.land c 0x3F)] ++ rest)
  = more c (decode_from (pos + 3) rest).
Proof.
  intros Hc Hsur.
  replace (N.shiftr c 12) with (c / 64 / 64)
    by (rewrite shiftr_12, N.Div0.div_div; reflexivity).
  rewrite shiftr_6, !low6.
  destruct (low_high c) as [Hsplit Hr].
  destruct (low_high (c / 64)) as [Hsplit2 Hr2].
  set (q := c / 64) in *. set (r := c mod 64) in *.
  set (q2 := q / 64) in *. set (r2 := q mod 64) in *. clearbody q r q2 r2.
  rewrite lor_0xE0, !lor_0x80 by lia.
  cbn [map app decode_from]. cbv zeta.
  rewrite !to_N_byte_of_N by lia.
  rewrite !is_continuation_low by assumption. cbn [negb orb].
  decide_ltb; decide_eqb.
  all: f_equal; unfold join3; rewrite !N.shiftl_mul_pow2;
    change (2 ^ 6) with 64; change (2 ^ 12) with 4096; lia.
Qed.

Lemma decode_char_4 c rest pos :
  0x10000 <= c < 0x110000 ->
  decode_from pos
    (map byte_of_N [N.lor 0xF0 (N.shiftr c 18);
                    N.lor 0x80 (N.land (N.shiftr c 12) 0x3F);
                    N.lor 0x80 (N.land (N.shiftr c 6) 0x3F);
                    N.lor 0x80 (N.land c 0x3F)] ++ rest)
  = more c (decode_from (pos + 4) rest).
Proof.
  intros Hc.
  replace (N.shiftr c 18) with (c / 64 / 64 / 64)
    by (rewrite shiftr_18, !N.Div0.div_div; reflexivity).
  replace (N.shiftr c 12) with (c / 64 / 64)
    by (rewrite shiftr_12, N.Div0.div_div; reflexivity).
  rewrite shiftr_6, !low6.
  destruct (low_high c) as [Hsplit Hr].
  destruct (low_high (c / 64)) as [Hsplit2 Hr2].
  destruct (low_high (c / 64 / 64)) as [Hsplit3 Hr3].
  set (q := c / 64) in *. set (r := c mod 64) in *.
  set (q2 := q / 64) in *. set (r2 := q mod 64) in *.
  set (q3 := q2 / 64) in *. set (r3 := q2 mod 64) in *.
  clearbody q r q2 r2 q3 r3.
  rewrite lor_0xF0, !lor_0x80 by lia.
  cbn [map app decode_from]. cbv zeta.
  rewrite !to_N_byte_of_N by lia.
  rewrite !is_continuation_low by assumption. cbn [negb orb].
  decide_ltb; decide_eqb.
  all: f_equal; unfold join4; rewrite !N.shiftl_mul_pow2;
    change (2 ^ 6) with 64; change (2 ^ 12) with 4096;
    change (2 ^ 18) with 262144; lia.
Qed.

(** One character: decoding what [encode_char] gave yields the character
    and goes on behind its bytes. *)
Lemma decode_encode_char c bs rest pos :
  encode_char c = Some bs ->
  decode_from pos (map byte_of_N bs ++ rest)
  = more c (decode_from (pos + N.of_nat (length bs)) rest).
Proof.
  unfold encode_char.
  destruct (N.ltb_spec c 0x80);
    [intros [= <-]; now apply decode_char_1|].
  destruct (N.ltb_spec c 0x800);
    [intros [= <-]; apply decode_char_2; lia|].
  destruct (N.ltb_spec c 0x10000).
  - destruct (N.leb_spec 0xD800 c); destruct (N.leb_spec c 0xDFFF);
      cbn [andb]; try discriminate;
      intros [= <-]; apply decode_char_3; lia.
  - destruct (N.ltb_spec c 0x110000); [|discriminate].
    intros [= <-]; apply decode_char_4; lia.
Qed.

Lemma decode_encode_from t :
  forall i pos s, encode_from i t = inr s -> decode_from pos s = inr t.
Proof.
  induction t as [|c t IH]; intros i pos s.
  - cbn. now intros [= <-].
  - cbn [encode_from].
    destruct (encode_char c) as [bs|] eqn:Hc; [|discriminate].
    destruct (encode_from (i + 1) t) as [j|rest] eqn:Hrest; [discriminate|].
    intros [= <-]. rewrite (decode_encode_char _ _ _ _ Hc).
    now rewrite (IH _ _ _ Hrest).
Qed.

Lemma encode_char_scalar c :
  is_scalar c = true <-> exists bs, encode_char c = Some bs.
Proof.
  unfold is_scalar, encode_char.
  destruct (N.ltb_spec c 0x80); [split; [eauto|intros _]|].
  { apply andb_true_iff. split; [apply N.ltb_lt; lia|].
    apply negb_true_iff, andb_false_iff. left. apply N.leb_gt. lia. }
  destruct (N.ltb_spec c 0x800); [split; [eauto|intros _]|].
  { apply andb_true_iff. split; [apply N.ltb_lt; lia|].
    apply negb_true_iff, andb_false_iff. left. apply N.leb_gt. lia. }
  destruct (N.ltb_spec c 0x10000).
  - destruct (N.ltb_spec c 0x110000); [|lia].
    destruct ((0xD800 <=? c) && (c <=? 0xDFFF)); cbn;
      split; eauto; try discriminate. intros [bs H']. discriminate H'.
  - destruct (N.ltb_spec c 0x110000); cbn [andb].
    + replace ((0xD800 <=? c) && (c <=? 0xDFFF)) with false; [split; eauto|].
      symmetry. apply andb_false_iff. right. apply N.leb_gt. lia.
    + split; [discriminate|]. intros [bs H']. discriminate H'.
Qed.

Lemma encode_from_scalars t :
  forall i, Forall (fun c => is_scalar c = true) t <->
            exists s, encode_from i t = inr s.
Proof.
  induction t as [|c t IH]; intros i.
  - split; [cbn; eauto|constructor].
  - split.
    + intros H. inversion H as [|? ? Hc Ht]; subst.
      apply encode_char_scalar in Hc as [bs Hbs].
      apply (IH (i + 1)) in Ht as [s Hs].
      cbn [encode_from]. rewrite Hbs, Hs. eauto.
    + cbn [encode_from]. intros [s Hs].
      destruct (encode_char c) as [bs|] eqn:Hc; [|discriminate].
      destruct (encode_from (i + 1) t) as [j|rest] eqn:Hrest; [discriminate|].
      constructor; [apply encode_char_scalar; eauto|].
      apply (IH (i + 1)). eauto.
Qed.

End CodecFacts.

Import CodecFacts.

(** X11.  The encoder and the decoder are inverse the other way round
    too: every text of Unicode scalar values has a UTF-8 encoding, and
    decoding that encoding gives the text back. *)
Theorem text_round_trip (t : Utf8.str) :
  Forall (fun ch => is_scalar ch = true) t ->
  exists s, Utf8.encode t = inr s /\ Utf8.decode s = inr t.
Proof.
  intros Ht. apply (encode_from_scalars t 0) in Ht as [s Hs].
  exists s. split; [exact Hs|]. apply (decode_encode_from t 0 0 s Hs).
Qed.

Lemma text_round_trip_witness :
  exists s,
    Utf8.encode [0x41; 0xE9; 0x20AC; 0x1F600] = inr s /\
    Utf8.decode s = inr [0x41; 0xE9; 0x20AC; 0x1F600].
Proof.
  apply (text_round_trip [0x41; 0xE9; 0x20AC; 0x1F600]).
  repeat constructor.
Defined.

(** X12.  What the decoder yields is text of Unicode scalar values only:
    no surrogate and nothing from 0x110000 on, so the text
    [handle_save_csv] hands to [f.write] can always be encoded. *)
Theorem decoded_text_is_scalar (s : list byte) (t : Utf8.str) :
  Utf8.decode s = inr t ->
  Forall (fun ch => is_scalar ch = true) t /\
  Py.encode t = inr s.
Proof.
  intros Hdec. pose proof (Utf8Facts.encode_decode s t Hdec) as Henc.
  split.
  - apply (encode_from_scalars t 0). exists s. exact Henc.
  - unfold Py.encode. now rewrite Henc.
Qed.

Lemma decoded_text_is_scalar_witness :
  Forall (fun ch => is_scalar ch = true) [0x20AC] /\
  Py.encode [0x20AC] = inr [xe2; x82; xac].
Proof.
  apply (decoded_text_is_scalar [xe2; x82; xac] [0x20AC]). reflexivity.
Defined.

(* ===================================================================== *)
(** ** Beyond the claims: the server, request after request *)
(* ===================================================================== *)

Module ServerFacts.
Import Http Reply ReadingArchiveHandler HandlerFacts ReplyFacts.
Import Outcome OutcomeFacts RequestFacts Server.

Lemma arrive_buffer p r : headers_buffer (arrive p r) = [].
Proof. destruct r. reflexivity. Qed.

Lemma arrive_is_save p r : is_save (arrive p r) = is_save r.
Proof. destruct r. reflexivity. Qed.

Lemma arrive_content_length p r :
  content_length (arrive p r) = content_length r.
Proof. destruct r. reflexivity. Qed.

Lemma arrive_taken p r size : taken size (arrive p r) = taken size r.
Proof. destruct r. reflexivity. Qed.

(** What one request does to the process. *)
Lemma serve_process p r :
  fst (serve p r) =
    if is_save r then
      match content_length r with
      | inl e => Process (disk p)
                   (printed p ++ ["Error saving CSV: " +:+ Py.str e])
      | inr size =>
        match Utf8.decode (taken size r) with
        | inl d =>
          Process (disk p)
            (printed p ++
             ["Error saving CSV: " +:+ Py.str (Py.UnicodeDecodeError d)])
        | inr _ =>
          Process (<["articles.csv" := taken size r]> (disk p))
            (printed p ++ ["CSV file saved successfully"])
        end
      end
    else p.
Proof.
  unfold serve. cbn [fst].
  destruct (request_run (arrive p r) (arrive_buffer p r))
    as (st' & Hrun & _ & Hst').
  rewrite Hrun. cbn [snd]. rewrite arrive_is_save in Hst'.
  destruct (is_save r).
  - subst st'. unfold save_result.
    rewrite arrive_content_length.
    destruct (content_length r) as [e|size]; [destruct r; reflexivity|].
    rewrite arrive_taken.
    destruct (Utf8.decode (taken size r)); destruct r; reflexivity.
  - destruct Hst' as (_ & Hfiles & Hout & _). rewrite Hfiles, Hout.
    destruct p, r. reflexivity.
Qed.



Lemma serve_forever_cons r rs p :
  fst (serve_forever (r :: rs) p) = fst (serve_forever rs (fst (serve p r))).
Proof.
  cbn [serve_forever]. destruct (serve p r) as [p1 reply]. cbn [fst].
  destruct (serve_forever rs p1). reflexivity.
Qed.

(** Requests that are not saves leave the process as it is. *)
Lemma serve_forever_others rs p :
  Forall (fun r => is_save r = false) rs -> fst (serve_forever rs p) = p.
Proof.
  induction 1 as [|r rs Hr _ IH]; [reflexivity|].
  rewrite serve_forever_cons, serve_process, Hr. exact IH.
Qed.

Lemma run_server_process port rs p :
  fst (run_server port rs p) =
    let p1 :=
      fst (serve_forever rs
             (Process (disk p)
                (printed p ++
                 ["Server running at http://localhost:" +:+ Py.str_N port
                  +:+ "/";
                  "Press Ctrl+C to stop the server"]))) in
    Process (disk p1) (printed p1 ++ [new_line +:+ "Server stopped."]).
Proof.
  unfold run_server. destruct (serve_forever rs _). reflexivity.
Qed.

Lemma serve_other_files p r name :
  name <> "articles.csv" -> disk (fst (serve p r)) !! name = disk p !! name.
Proof.
  intros Hname. rewrite serve_process.
  destruct (is_save r); [|reflexivity].
  destruct (content_length r) as [e|size]; [reflexivity|].
  destruct (Utf8.decode (taken size r)); [reflexivity|].
  apply lookup_insert_ne. congruence.
Qed.

(** Each request prints one line if it is a save and nothing otherwise. *)
Lemma serve_printed p r :
  exists lines,
    printed (fst (serve p r)) = printed p ++ lines /\
    length lines = (if is_save r then 1 else 0)%nat.
Proof.
  rewrite serve_process. destruct (is_save r).
  - destruct (content_length r) as [e|size];
      [|destruct (Utf8.decode (taken size r))];
      eexists [_]; split; reflexivity.
  - exists []. split; [symmetry; apply app_nil_r|reflexivity].
Qed.

Lemma serve_forever_printed rs :
  forall p, exists lines,
    printed (fst (serve_forever rs p)) = printed p ++ lines /\
    length lines = length (List.filter is_save rs).
Proof.
  induction rs as [|r rs IH]; intros p.
  - exists []. split; [symmetry; apply app_nil_r|reflexivity].
  - rewrite serve_forever_cons.
    destruct (serve_printed p r) as (l1 & H1 & Hn1).
    destruct (IH (fst (serve p r))) as (l2 & H2 & Hn2).
    exists (l1 ++ l2). split.
    + rewrite H2, H1. symmetry. apply app_assoc.
    + rewrite length_app, Hn1, Hn2. cbn [List.filter].
      destruct (is_save r); reflexivity.
Qed.


End ServerFacts.

Import Server ServerFacts.



(** X14.  The server never creates, changes or removes a file other than
    articles.csv, whatever requests it handles. *)
Theorem server_writes_one_file (port : N) (requests : list state)
    (p : process) (name : string) :
  name <> "articles.csv" ->
  disk (fst (run_server port requests p)) !! name = disk p !! name.
Proof.
  intros Hname. rewrite run_server_process. cbv zeta. cbn [disk].
  assert (Hall : forall rs p',
            disk (fst (serve_forever rs p')) !! name = disk p' !! name).
  { induction rs as [|r rs IH]; intros p'; [reflexivity|].
    rewrite serve_forever_cons, IH. apply serve_other_files, Hname. }
  rewrite Hall. reflexivity.
Qed.

Lemma server_writes_one_file_witness :
  disk (fst (run_server 8000 [Sample.scenario]
               (Process {["index.html" := Sample.bytes_of "<html>"]} [])))
    !! "index.html"
  = disk (Process {["index.html" := Sample.bytes_of "<html>"]} [])
      !! "index.html".
Proof.
  apply (server_writes_one_file 8000 [Sample.scenario]
           (Process {["index.html" := Sample.bytes_of "<html>"]} [])
           "index.html").
  discriminate.
Defined.

(** X15.  What the server prints: the two lines of the banner, with the
    port, then one line for each POST to /api/save-csv it handled and
    nothing for any other request, then the farewell. *)
Theorem server_prints_one_line_per_save (port : N) (requests : list state)
    (p : process) :
  exists lines,
    printed (fst (run_server port requests p)) =
      printed p
      ++ ["Server running at http://localhost:" +:+ Py.str_N port +:+ "/";
          "Press Ctrl+C to stop the server"]
      ++ lines
      ++ [new_line +:+ "Server stopped."] /\
    length lines = length (List.filter is_save requests).
Proof.
  rewrite run_server_process. cbv zeta. cbn [printed].
  destruct (serve_forever_printed requests
              (Process (disk p)
                 (printed p ++
                  ["Server running at http://localhost:" +:+ Py.str_N port
                   +:+ "/";
                   "Press Ctrl+C to stop the server"])))
    as (lines & Hlines & Hcount).
  exists lines. split; [|exact Hcount].
  rewrite Hlines. cbn [printed]. rewrite <- !app_assoc. reflexivity.
Qed.


(* ===================================================================== *)
(** ** Beyond the claims: where a decoding error points *)
(* ===================================================================== *)

Module DecodeErrorFacts.
Import Utf8 Utf8Facts Outcome.

Lemma more_inl c r e : more c r = inl e -> r = inl e.
Proof. destruct r; cbn; congruence. Qed.

Lemma points_here pos b s stop why :
  pos < stop <= pos + N.of_nat (length (b :: s)) ->
  points_inside pos (b :: s) (DecodeError b pos stop why).
Proof.
  intros Hstop. unfold points_inside. cbn [err_start err_stop err_byte].
  rewrite N.sub_diag. cbn [N.to_nat nth_error firstn decode_from].
  repeat split; try lia. exists []. reflexivity.
Qed.

(** An error behind a character that decodes is an error of the whole. *)
Lemma points_after pos (pre s : list byte) e c k :
  N.of_nat (length pre) = k ->
  (forall rest,
     decode_from pos (pre ++ rest) = more c (decode_from (pos + k) rest)) ->
  points_inside (pos + k) s e ->
  points_inside pos (pre ++ s) e.
Proof.
  intros Hk Hpre (Hstart & Hstop & Hbyte & t & Ht).
  assert (Hoff : N.to_nat (err_start e - pos)
                 = (length pre + N.to_nat (err_start e - (pos + k)))%nat)
    by lia.
  unfold points_inside. rewrite Hoff. repeat split.
  - lia.
  - lia.
  - rewrite length_app. lia.
  - rewrite nth_error_app2 by lia.
    replace (length pre + N.to_nat (err_start e - (pos + k)) - length pre)%nat
      with (N.to_nat (err_start e - (pos + k))) by lia.
    exact Hbyte.
  - exists (c :: t). rewrite firstn_app_2, Hpre, Ht. reflexivity.
Qed.

Lemma decode_error_from (n : nat) :
  forall s, (length s <= n)%nat ->
  forall pos e, decode_from pos s = inl e -> points_inside pos s e.
Proof.
  induction n as [|n IH]; intros s Hlen pos e Hdec.
  - destruct s; [discriminate Hdec|cbn in Hlen; lia].
  - destruct s as [|b s1]; [discriminate Hdec|].
    cbn [length] in Hlen. cbn [decode_from] in Hdec. cbv zeta in Hdec.
    destruct (Byte.to_N b <? 0x80) eqn:E1.
    { apply more_inl in Hdec.
      apply (points_after pos [b] s1 e (Byte.to_N b) 1); [reflexivity| |].
      - intros rest. cbn [app decode_from]. cbv zeta. now rewrite E1.
      - apply (IH s1 ltac:(lia) _ _ Hdec). }
    destruct (Byte.to_N b <? 0xE0) eqn:E2.
    { destruct (Byte.to_N b <? 0xC2) eqn:E2'.
      { injection Hdec as <-. apply points_here. cbn [length]. lia. }
      destruct s1 as [|b2 s2].
      { injection Hdec as <-. apply points_here. cbn [length]. lia. }
      destruct (is_continuation (Byte.to_N b2)) eqn:C2; cbn [negb] in Hdec.
      2:{ injection Hdec as <-. apply points_here. cbn [length]. lia. }
      apply more_inl in Hdec. cbn [length] in Hlen.
      apply (points_after pos [b; b2] s2 e
               (join2 (Byte.to_N b) (Byte.to_N b2)) 2 eq_refl).
      - intros rest. cbn [app decode_from]. cbv zeta.
        now rewrite E1, E2, E2', C2.
      - apply (IH s2 ltac:(lia) _ _ Hdec). }
    destruct (Byte.to_N b <? 0xF0) eqn:E3.
    { destruct s1 as [|b2 s2].
      { injection Hdec as <-. apply points_here. cbn [length]. lia. }
      destruct (is_continuation (Byte.to_N b2)) eqn:C2;
        cbn [negb orb] in Hdec.
      2:{ injection Hdec as <-. apply points_here. cbn [length]. lia. }
      destruct (if Byte.to_N b2 <? 0xA0 then Byte.to_N b =? 0xE0
                else Byte.to_N b =? 0xED) eqn:F.
      { injection Hdec as <-. apply points_here. cbn [length]. lia. }
      destruct s2 as [|b3 s3].
      { injection Hdec as <-. apply points_here. cbn [length]. lia. }
      destruct (is_continuation (Byte.to_N b3)) eqn:C3; cbn [negb] in Hdec.
      2:{ injection Hdec as <-. apply points_here. cbn [length]. lia. }
      apply more_inl in Hdec. cbn [length] in Hlen.
      apply (points_after pos [b; b2; b3] s3 e
               (join3 (Byte.to_N b) (Byte.to_N b2) (Byte.to_N b3)) 3 eq_refl).
      - intros rest. cbn [app decode_from]. cbv zeta.
        rewrite E1, E2, E3, C2. cbn [negb orb]. now rewrite F, C3.
      - apply (IH s3 ltac:(lia) _ _ Hdec). }
    destruct (Byte.to_N b <? 0xF5) eqn:E4.
    2:{ injection Hdec as <-. apply points_here. cbn [length]. lia. }
    destruct s1 as [|b2 s2].
    { injection Hdec as <-. apply points_here. cbn [length]. lia. }
    destruct (is_continuation (Byte.to_N b2)) eqn:C2; cbn [negb orb] in Hdec.
    2:{ injection Hdec as <-. apply points_here. cbn [length]. lia. }
    destruct (if Byte.to_N b2 <? 0x90 then Byte.to_N b =? 0xF0
              else Byte.to_N b =? 0xF4) eqn:F.
    { injection Hdec as <-. apply points_here. cbn [length]. lia. }
    destruct s2 as [|b3 s3].
    { injection Hdec as <-. apply points_here. cbn [length]. lia. }
    destruct (is_continuation (Byte.to_N b3)) eqn:C3; cbn [negb] in Hdec.
    2:{ injection Hdec as <-. apply points_here. cbn [length]. lia. }
    destruct s3 as [|b4 s4].
    { injection Hdec as <-. apply points_here. cbn [length]. lia. }
    destruct (is_continuation (Byte.to_N b4)) eqn:C4; cbn [negb] in Hdec.
    2:{ injection Hdec as <-. apply points_here. cbn [length]. lia. }
    apply more_inl in Hdec. cbn [length] in Hlen.
    apply (points_after pos [b; b2; b3; b4] s4 e
             (join4 (Byte.to_N b) (Byte.to_N b2) (Byte.to_N b3)
                (Byte.to_N b4)) 4 eq_refl).
    + intros rest. cbn [app decode_from]. cbv zeta.
      rewrite E1, E2, E3, E4, C2. cbn [negb orb]. now rewrite F, C3, C4.
    + apply (IH s4 ltac:(lia) _ _ Hdec).
Qed.

End DecodeErrorFacts.

Import DecodeErrorFacts.

(** X17.  When [bytes.decode('utf-8')] fails, the error it raises points
    into the input: the blamed range is not empty and lies inside the
    input, it begins at the byte the message names, and everything before
    it decodes. *)
Theorem decode_error_points_inside (s : list byte) (e : Utf8.decode_error) :
  Utf8.decode s = inl e ->
  Utf8.err_start e < Utf8.err_stop e <= N.of_nat (length s) /\
  nth_error s (N.to_nat (Utf8.err_start e)) = Some (Utf8.err_byte e) /\
  exists t, Utf8.decode (firstn (N.to_nat (Utf8.err_start e)) s) = inr t.
Proof.
  intros Hdec.
  destruct (decode_error_from (length s) s (Nat.le_refl _) 0 e Hdec)
    as (_ & Hrange & Hbyte & Hprefix).
  rewrite N.sub_0_r in Hbyte, Hprefix. rewrite N.add_0_l in Hrange.
  repeat split; [apply Hrange|apply Hrange|exact Hbyte|exact Hprefix].
Qed.

Lemma decode_error_points_inside_witness :
  Utf8.err_start (Utf8.DecodeError xe2 2 4 Utf8.UnexpectedEnd)
  < Utf8.err_stop (Utf8.DecodeError xe2 2 4 Utf8.UnexpectedEnd)
  <= N.of_nat (length [x61; x62; xe2; x82]).
Proof.
  apply (decode_error_points_inside [x61; x62; xe2; x82]
           (Utf8.DecodeError xe2 2 4 Utf8.UnexpectedEnd)).
  reflexivity.
Defined.
